(** * NomadCrew front end: a shallow embedding of the todo list, the
    trip-creation form, the auth store, the secure token manager and
    the trip tab filter, with the properties stated about them.

    Part I holds the embedding, one module per component or store.
    Part II holds the properties.

    Conventions.  A JavaScript string is a [string] of ASCII characters;
    [null] and [undefined] are [None].  A call into a store or into the
    hosted backend is recorded as an event, and what the callee answers
    is an argument of the caller. *)

From Stdlib Require Import String Ascii List ZArith Bool Arith.
Import ListNotations.

Local Open Scope string_scope.
Local Open Scope nat_scope.
Local Open Scope list_scope.

(* ===================================================================== *)
(** * Part I. The embedding                                              *)
(* ===================================================================== *)

(** ** The fragments of the JavaScript runtime the sources rely on *)

Module Js.

Definition isLowerAZ (c : ascii) : bool :=
  let n := nat_of_ascii c in (97 <=? n) && (n <=? 122).

Definition isUpperAZ (c : ascii) : bool :=
  let n := nat_of_ascii c in (65 <=? n) && (n <=? 90).

Definition upperChar (c : ascii) : ascii :=
  if isLowerAZ c then ascii_of_nat (nat_of_ascii c - 32) else c.

Definition lowerChar (c : ascii) : ascii :=
  if isUpperAZ c then ascii_of_nat (nat_of_ascii c + 32) else c.

(** The embedding covers ASCII text: a character is ASCII when its code
    is below 128.  On such text the functions below are the JavaScript
    ones; on other text JavaScript folds more letters and strips more
    white space, so a property that would read differently there is
    stated for ASCII text. *)
Definition isAsciiChar (c : ascii) : bool := nat_of_ascii c <? 128.

Fixpoint isAscii (s : string) : bool :=
  match s with
  | EmptyString => true
  | String c r => isAsciiChar c && isAscii r
  end.

(** A missing text has no character outside ASCII. *)
Definition isAsciiOpt (o : option string) : bool :=
  match o with
  | Some s => isAscii s
  | None => true
  end.

(** [String.prototype.toUpperCase] on ASCII text. *)
Fixpoint toUpperCase (s : string) : string :=
  match s with
  | EmptyString => EmptyString
  | String c r => String (upperChar c) (toUpperCase r)
  end.

(** [String.prototype.toLowerCase] on ASCII text. *)
Fixpoint toLowerCase (s : string) : string :=
  match s with
  | EmptyString => EmptyString
  | String c r => String (lowerChar c) (toLowerCase r)
  end.

(** White space and line terminators of the ASCII range:
    TAB, LF, VT, FF, CR and SPACE. *)
Definition isWhiteSpace (c : ascii) : bool :=
  let n := nat_of_ascii c in ((9 <=? n) && (n <=? 13)) || (n =? 32).

Fixpoint trimStart (s : string) : string :=
  match s with
  | EmptyString => EmptyString
  | String c r => if isWhiteSpace c then trimStart r else s
  end.

Fixpoint reverse (s acc : string) : string :=
  match s with
  | EmptyString => acc
  | String c r => reverse r (String c acc)
  end.

Definition trimEnd (s : string) : string :=
  reverse (trimStart (reverse s EmptyString)) EmptyString.

(** [String.prototype.trim] on ASCII text. *)
Definition trim (s : string) : string := trimEnd (trimStart s).

(** Every character of [s] is white space (so also when [s] is empty). *)
Fixpoint allWhiteSpace (s : string) : bool :=
  match s with
  | EmptyString => true
  | String c r => isWhiteSpace c && allWhiteSpace r
  end.

(** [s.includes(q)]: [q] occurs in [s] as a substring. *)
Fixpoint includes (s q : string) : bool :=
  if String.prefix q s then true
  else match s with
       | EmptyString => false
       | String _ r => includes r q
       end.

(** Truthiness of a string: only the empty string is falsy. *)
Definition truthy (s : string) : bool := negb (String.eqb s "").

(** Truthiness of a [string | null | undefined]. *)
Definition truthyOpt (o : option string) : bool :=
  match o with
  | None => false
  | Some s => truthy s
  end.

(** [a === b] where [a] may be [undefined] and [b] is a string literal. *)
Definition strictEq (a : option string) (b : string) : bool :=
  match a with
  | None => false
  | Some s => String.eqb s b
  end.

(** The time value of a [Date]: milliseconds since the epoch, or
    [None] for an Invalid Date (whose time value is NaN). *)
Definition TimeValue := option Z.

(** [d1 < d2] on two [Date] objects: both are converted to numbers,
    and a comparison with NaN is false. *)
Definition dateLt (d1 d2 : TimeValue) : bool :=
  match d1, d2 with
  | Some a, Some b => (a <? b)%Z
  | _, _ => false
  end.

(** A date parser to run examples on: it knows three ISO strings and
    answers Invalid Date for any other text. *)
Definition sampleParseDate (iso : string) : TimeValue :=
  if String.eqb iso "2025-01-01T00:00:00.000Z" then Some 1735689600000%Z
  else if String.eqb iso "2025-01-10T00:00:00.000Z" then Some 1736467200000%Z
  else if String.eqb iso "2030-06-01T00:00:00.000Z" then Some 1906502400000%Z
  else None.

(** What a promise settles to. *)
Inductive Settled (A : Type) : Type :=
| Fulfilled (value : A)
| Rejected (reason : string).
Arguments Fulfilled {A} value.
Arguments Rejected {A} reason.

End Js.

(** ** src/components/todo/TodoList.tsx *)

Module Todo.
(** The [Todo] type is declared outside these sources.  The list reads
    [id] and [status]; [body] stands for the fields it passes through
    unread. *)
Record t : Type := mk { id : string; status : string; body : string }.
End Todo.

Module WsConnection.
(** The realtime connection object held by the store.  The list reads
    its [status] and nothing else; [channel] stands for the rest. *)
Record t : Type := mk { status : option string; channel : string }.
End WsConnection.

Module TodoList.

(** What [useTodoStore()] hands to the component. *)
Record TodoStore : Type := {
  todos : list Todo.t;
  loading : bool;
  error : option string;
  hasMore : bool;
  wsConnection : option WsConnection.t
}.

Record TodoListProps : Type := {
  tripId : string;
  onAddTodoPress : option string   (* the optional callback, by name *)
}.

(** The store functions the component calls. *)
Inductive StoreCall : Type :=
| fetchTodos (trip : string) (offset limit : nat)
| updateTodo (id : string) (newStatus : string)
| deleteTodo (id : string).

(** What happens to a rejection of the promise a call returns. *)
Inductive OnReject : Type := Unhandled | ConsoleError.

Inductive Event : Type :=
| Call (c : StoreCall) (r : OnReject)
| Invoke (callback : string).

Definition ITEMS_PER_PAGE : nat := 5.

Definition connectionStatus (st : TodoStore) : option string :=
  match wsConnection st with
  | None => None
  | Some ws => WsConnection.status ws
  end.

Definition handleLoadMore (p : TodoListProps) (st : TodoStore) : list Event :=
  if negb (loading st) && hasMore st
  then [Call (fetchTodos (tripId p) (List.length (todos st)) 20) Unhandled]
  else [].

Definition handleRetry (p : TodoListProps) : list Event :=
  [Call (fetchTodos (tripId p) 0 20) ConsoleError].

(** The effect run on mount and whenever [tripId] changes. *)
Definition initialLoad (p : TodoListProps) : list Event :=
  [Call (fetchTodos (tripId p) 0 20) Unhandled].

Record TodoItemProps : Type := {
  todo : Todo.t;
  onComplete : list Event;
  onDelete : list Event;
  disabled : bool;
  textColor : string
}.

Section Render.

(** [getColorForUUID] of src/utils/uuidToColor, outside these sources. *)
Variable getColorForUUID : string -> string.

Definition renderItem (st : TodoStore) (item : Todo.t) : TodoItemProps :=
  {| todo := item;
     onComplete :=
       [Call (updateTodo (Todo.id item)
                (if String.eqb (Todo.status item) "COMPLETE"
                 then "INCOMPLETE" else "COMPLETE")) Unhandled];
     onDelete := [Call (deleteTodo (Todo.id item)) Unhandled];
     disabled := loading st;
     textColor := getColorForUUID (Todo.id item) |}.

(** The surfaces drawn above the list. *)
Inductive Surface : Type :=
| ConnectionBanner (text : string)
| ConnectionError (text : string).

Definition connectionBanner (status : option string) : list Surface :=
  (if Js.strictEq status "CONNECTING" || Js.strictEq status "RECONNECTING"
   then [ConnectionBanner
           (if Js.strictEq status "CONNECTING"
            then "Connecting..." else "Reconnecting...")]
   else [])
  ++
  (if Js.strictEq status "ERROR"
   then [ConnectionError
           "Connection error. Please check your internet connection."]
   else []).

(** What [TodoListContent] returns. *)
Inductive View : Type :=
| Spinner
| ErrorScreen (message : string) (retryOnPress : list Event)
| EmptyScreen (addTodoOnPress : list Event)
| ListScreen (surfaces : list Surface)
             (data : list TodoItemProps)
             (onEndReached : list Event)
             (footerSpinner : bool).

Definition optionalCallback (cb : option string) : list Event :=
  match cb with
  | None => []
  | Some f => [Invoke f]
  end.

Definition TodoListContent (p : TodoListProps) (st : TodoStore) : View :=
  if loading st && (List.length (todos st) =? 0) then Spinner
  else if Js.truthyOpt (error st) then
    ErrorScreen (match error st with Some e => e | None => "" end)
                (handleRetry p)
  else if List.length (todos st) =? 0 then
    EmptyScreen (optionalCallback (onAddTodoPress p))
  else
    ListScreen (connectionBanner (connectionStatus st))
               (List.map (renderItem st) (todos st))
               (handleLoadMore p st)
               (loading st).

End Render.

(** The texts of the surfaces. *)
Definition connectingText : string := "Connecting...".
Definition reconnectingText : string := "Reconnecting...".
Definition connectionErrorText : string :=
  "Connection error. Please check your internet connection.".

(** Readers of a returned view. *)
Definition surfacesOf (v : View) : list Surface :=
  match v with
  | ListScreen surfaces _ _ _ => surfaces
  | _ => []
  end.

Definition rowsOf (v : View) : list TodoItemProps :=
  match v with
  | ListScreen _ data _ _ => data
  | _ => []
  end.

Definition isListScreen (v : View) : bool :=
  match v with
  | ListScreen _ _ _ _ => true
  | _ => false
  end.

Definition onEndReachedOf (v : View) : list Event :=
  match v with
  | ListScreen _ _ onEndReached _ => onEndReached
  | _ => []
  end.

Definition footerSpinnerOf (v : View) : bool :=
  match v with
  | ListScreen _ _ _ footer => footer
  | _ => false
  end.

(** The store with another connection object in place. *)
Definition withConnection (st : TodoStore) (ws : option WsConnection.t)
  : TodoStore :=
  {| todos := todos st; loading := loading st; error := error st;
     hasMore := hasMore st; wsConnection := ws |}.

(** Modelled from the spec: the effect of the store's [fetchTodos] on
    the list when it delivers a page requested by load-more.  The store
    (src/store/useTodoStore) is not among the sources; the spec states
    that the list is append-only across pages, so the delivered page is
    put after the todos already loaded. *)
Definition appendPage (loaded page : list Todo.t) : list Todo.t :=
  loaded ++ page.

(** One load-more step: the handler runs on the store as it is; when it
    issues its fetch the store delivers [page] and the other store
    fields change as the store sees fit. *)
Inductive loadMoreStep (p : TodoListProps) : TodoStore -> TodoStore -> Prop :=
| loadMore_skipped st :
    handleLoadMore p st = [] ->
    loadMoreStep p st st
| loadMore_fetched st st' page :
    handleLoadMore p st =
      [Call (fetchTodos (tripId p) (List.length (todos st)) 20) Unhandled] ->
    todos st' = appendPage (todos st) page ->
    loadMoreStep p st st'.

(** Any number of load-more steps. *)
Inductive loadMoreSteps (p : TodoListProps) : TodoStore -> TodoStore -> Prop :=
| loadMore_done st : loadMoreSteps p st st
| loadMore_next st1 st2 st3 :
    loadMoreStep p st1 st2 -> loadMoreSteps p st2 st3 ->
    loadMoreSteps p st1 st3.

(** Sample data to run the component on. *)
Definition sampleProps : TodoListProps :=
  {| tripId := "trip-1"; onAddTodoPress := None |}.

Definition sampleColor (id : string) : string := "#336699".

Definition todoA : Todo.t := Todo.mk "a" "COMPLETE" "Book flights".
Definition todoB : Todo.t := Todo.mk "b" "INCOMPLETE" "Pack bags".

Definition sampleStore : TodoStore :=
  {| todos := [todoA]; loading := false; error := None; hasMore := true;
     wsConnection := Some (WsConnection.mk (Some "CONNECTING") "todos:trip-1") |}.

Definition sampleStoreNext : TodoStore :=
  {| todos := [todoA; todoB]; loading := false; error := None;
     hasMore := false;
     wsConnection := Some (WsConnection.mk (Some "CONNECTED") "todos:trip-1") |}.

Definition sampleStoreEmpty : TodoStore :=
  {| todos := []; loading := false; error := None; hasMore := false;
     wsConnection := Some (WsConnection.mk (Some "CONNECTING") "todos:trip-1") |}.

Definition sampleStoreFailed : TodoStore :=
  {| todos := [todoA]; loading := false;
     error := Some "Network request failed"; hasMore := true;
     wsConnection := None |}.

End TodoList.


(** ** src/components/trips/CreateTripModal.tsx *)

Module CreateTripModal.

(** The form state, with the fields its initial value lists.  The two
    dates are ISO strings. *)
Record Trip : Type := {
  id : string;
  name : string;
  destination : string;
  description : string;
  startDate : string;
  endDate : string
}.

Inductive Effect : Type :=
| Alert (title message : string)
| SetLoading (value : bool)
| OnSubmit (tripData : Trip)
| OnClose.

Section Form.

(** [new Date(isoString)], read through its time value. *)
Variable parseDate : string -> Js.TimeValue.

(** [validateForm] returns its verdict together with the alert it shows. *)
Definition validateForm (trip : Trip) : bool * list Effect :=
  if negb (Js.truthy (Js.trim (name trip))) then
    (false, [Alert "Validation Error" "Please enter a trip name."])
  else if negb (Js.truthy (Js.trim (destination trip))) then
    (false, [Alert "Validation Error" "Please enter a destination."])
  else if Js.dateLt (parseDate (endDate trip)) (parseDate (startDate trip)) then
    (false, [Alert "Validation Error" "End date must be after start date."])
  else (true, []).

(** [handleSubmit]; [submitted] is what the promise of [onSubmit(trip)]
    settles to. *)
Definition handleSubmit (trip : Trip) (submitted : Js.Settled unit)
  : list Effect :=
  let (valid, shown) := validateForm trip in
  if negb valid then shown
  else
    shown ++ [SetLoading true; OnSubmit trip]
    ++ match submitted with
       | Js.Fulfilled _ => [OnClose]
       | Js.Rejected _ =>
           [Alert "Error" "Failed to create trip. Please try again."]
       end
    ++ [SetLoading false].

Definition handleDismiss : list Effect := [OnClose].

End Form.

(** The two outcomes of a submission, to state its cases with: the
    alert of a refused form, and the run of an accepted one. *)
Definition validationAlert (message : string) : list Effect :=
  [Alert "Validation Error" message].

Definition submission (trip : Trip) (submitted : Js.Settled unit)
  : list Effect :=
  [SetLoading true; OnSubmit trip;
   match submitted with
   | Js.Fulfilled _ => OnClose
   | Js.Rejected _ => Alert "Error" "Failed to create trip. Please try again."
   end;
   SetLoading false].

(** Sample forms. *)
Definition blankTrip : Trip :=
  {| id := ""; name := ""; destination := ""; description := "";
     startDate := "2025-01-01T00:00:00.000Z";
     endDate := "2025-01-01T00:00:00.000Z" |}.

Definition lisbonTrip : Trip :=
  {| id := ""; name := "Lisbon"; destination := "Portugal";
     description := "";
     startDate := "2025-01-01T00:00:00.000Z";
     endDate := "2025-01-10T00:00:00.000Z" |}.

Definition backwardsTrip : Trip :=
  {| id := ""; name := "Lisbon"; destination := "Portugal";
     description := "";
     startDate := "2025-01-10T00:00:00.000Z";
     endDate := "2025-01-01T00:00:00.000Z" |}.

(** *** The date picker *)

(** Which date the picker edits: ['start'] or ['end']. *)
Inductive Picker : Type := PickStart | PickEnd.

(** The three [useState] cells of the modal. *)
Record FormState : Type := {
  trip : Trip;
  showDatePicker : option Picker;
  loading : bool
}.

(** [{ ...prev, startDate: iso }] and [{ ...prev, endDate: iso }]. *)
Definition withStartDate (t : Trip) (iso : string) : Trip :=
  {| id := id t; name := name t; destination := destination t;
     description := description t; startDate := iso; endDate := endDate t |}.

Definition withEndDate (t : Trip) (iso : string) : Trip :=
  {| id := id t; name := name t; destination := destination t;
     description := description t; startDate := startDate t; endDate := iso |}.

Section DatePicker.

(** [new Date(isoString)] and [date.toISOString()], both read through
    the time value of the date. *)
Variable parseDate : string -> Js.TimeValue.
Variable toISOString : Z -> string.

(** The form as the modal opens it; the clock is read once for each of
    the two dates. *)
Definition initialForm (startNow endNow : Z) : FormState :=
  {| trip := {| id := ""; name := ""; destination := ""; description := "";
                startDate := toISOString startNow;
                endDate := toISOString endNow |};
     showDatePicker := None;
     loading := false |}.

(** Pressing one of the two date fields. *)
Definition openPicker (which : Picker) (st : FormState) : FormState :=
  {| trip := trip st; showDatePicker := Some which; loading := loading st |}.

(** [handleDateChange]; [os] is [Platform.OS] and [selectedDate] the
    time value of the date the picker hands over, if any. *)
Definition handleDateChange (os : string) (st : FormState)
  (selectedDate : option Z) : FormState :=
  let shown := if String.eqb os "android" then None else showDatePicker st in
  match selectedDate, showDatePicker st with
  | Some d, Some which =>
      let dateKey :=
        match which with
        | PickStart => withStartDate
        | PickEnd => withEndDate
        end in
      {| trip := dateKey (trip st) (toISOString d);
         showDatePicker := shown; loading := loading st |}
  | _, _ =>
      {| trip := trip st; showDatePicker := shown; loading := loading st |}
  end.

(** The [minimumDate] the picker is given while it is open. *)
Definition minimumDate (st : FormState) : option Js.TimeValue :=
  match showDatePicker st with
  | Some PickEnd => Some (parseDate (startDate (trip st)))
  | _ => None
  end.

End DatePicker.

(** A clock-free [toISOString] to run examples on: the inverse of
    [Js.sampleParseDate] on the three instants it knows. *)
Definition sampleToISOString (t : Z) : string :=
  if (t =? 1735689600000)%Z then "2025-01-01T00:00:00.000Z"
  else if (t =? 1736467200000)%Z then "2025-01-10T00:00:00.000Z"
  else if (t =? 1906502400000)%Z then "2030-06-01T00:00:00.000Z"
  else "".

End CreateTripModal.

(** ** The auth store, [useAuthStore], in src/components/ui/Avatar.tsx *)

Module AuthStore.

Section Store.

(** JavaScript numbers and [parseInt], left to the runtime. *)
Variable Number : Type.
Variable parseInt : string -> Number.

Record User : Type := {
  id : Number;
  email : string;
  username : string;
  firstName : option string;
  lastName : option string;
  profilePicture : option string
}.

Record AuthState : Type := {
  user : option User;
  token : option string;
  loading : bool;
  error : option string;
  isInitialized : bool;
  isFirstTime : bool;
  isVerifying : bool
}.

(** The object a [set({...})] call is given: a field that is absent is
    [None]; a field that is present carries its new value. *)
Record Partial : Type := {
  set_user : option (option User);
  set_token : option (option string);
  set_loading : option bool;
  set_error : option (option string);
  set_isInitialized : option bool;
  set_isFirstTime : option bool;
  set_isVerifying : option bool
}.

Definition unchanged : Partial :=
  {| set_user := None; set_token := None; set_loading := None;
     set_error := None; set_isInitialized := None; set_isFirstTime := None;
     set_isVerifying := None |}.

Definition pick {A : Type} (new : option A) (old : A) : A :=
  match new with
  | Some v => v
  | None => old
  end.

(** zustand's [set]: a shallow merge of the partial into the state. *)
Definition set (p : Partial) (st : AuthState) : AuthState :=
  {| user := pick (set_user p) (user st);
     token := pick (set_token p) (token st);
     loading := pick (set_loading p) (loading st);
     error := pick (set_error p) (error st);
     isInitialized := pick (set_isInitialized p) (isInitialized st);
     isFirstTime := pick (set_isFirstTime p) (isFirstTime st);
     isVerifying := pick (set_isVerifying p) (isVerifying st) |}.

(** The store as [create] builds it. *)
Definition initialState : AuthState :=
  {| user := None; token := None; loading := false; error := None;
     isInitialized := false; isFirstTime := false; isVerifying := false |}.

(** What the hosted auth client answers. *)
Record UserMetadata : Type := {
  meta_username : option string;
  meta_firstName : option string;
  meta_lastName : option string;
  meta_avatar_url : option string
}.

Record SessionUser : Type := {
  session_user_id : string;
  session_user_email : option string;
  user_metadata : option UserMetadata
}.

Record Session : Type := {
  session_user : option SessionUser;
  access_token : string
}.

(** [{ data: { session }, error }] of [getSession]; an error object is
    kept by its message. *)
Record SessionReply : Type := {
  reply_session : option Session;
  reply_error : option string
}.

Inductive Event : Type :=
| GetSession
| SignOut
| ConsoleError (label reason : string).

(** [a ?? b]. *)
Definition orElse (a : option string) (b : string) : string :=
  match a with
  | Some v => v
  | None => b
  end.

(** [session.user.user_metadata?.field]. *)
Definition metadata (u : SessionUser)
  (field : UserMetadata -> option string) : option string :=
  match user_metadata u with
  | Some m => field m
  | None => None
  end.

Definition buildUser (u : SessionUser) : User :=
  {| id := parseInt (session_user_id u);
     email := orElse (session_user_email u) "";
     username := orElse (metadata u meta_username) "";
     firstName := metadata u meta_firstName;
     lastName := metadata u meta_lastName;
     profilePicture := metadata u meta_avatar_url |}.

(** [recoverSession]: every failure is logged and answered by [null]. *)
Definition recoverSession (answer : Js.Settled SessionReply)
  : option Session * list Event :=
  match answer with
  | Js.Rejected e =>
      (None, [GetSession; ConsoleError "[AuthStore] Session recovery failed:" e])
  | Js.Fulfilled r =>
      match reply_error r with
      | Some e =>
          (None,
           [GetSession; ConsoleError "[AuthStore] Session recovery failed:" e])
      | None => (reply_session r, [GetSession])
      end
  end.

(** [initialize]; [answer] is what [getSession] settles to.  Nothing in
    the [try] block throws once [recoverSession] has caught its own
    failures, so the [catch] block of the source has no run. *)
Definition initialize (st : AuthState) (answer : Js.Settled SessionReply)
  : AuthState * list Event :=
  if loading st || isInitialized st then (st, [])
  else
    let st1 := set {| set_user := None; set_token := None;
                      set_loading := Some true; set_error := None;
                      set_isInitialized := None; set_isFirstTime := None;
                      set_isVerifying := None |} st in
    let (session, log) := recoverSession answer in
    match match session with
          | Some s => option_map (fun u => (s, u)) (session_user s)
          | None => None
          end with
    | Some (s, u) =>
        (set {| set_user := Some (Some (buildUser u));
                set_token := Some (Some (access_token s));
                set_isInitialized := Some true;
                set_loading := Some false;
                set_error := Some None;
                set_isFirstTime := None; set_isVerifying := None |} st1,
         log)
    | None =>
        (set {| set_user := Some None;
                set_token := Some None;
                set_isInitialized := Some true;
                set_loading := Some false;
                set_error := Some None;
                set_isFirstTime := None; set_isVerifying := None |} st1,
         log)
    end.

(** [logout]; [answer] is what [signOut] settles to: it rejects, or it
    fulfils with [{ error }]. *)
Definition logout (st : AuthState) (answer : Js.Settled (option string))
  : AuthState * list Event :=
  let st1 := set {| set_user := None; set_token := None;
                    set_loading := Some true; set_error := None;
                    set_isInitialized := None; set_isFirstTime := None;
                    set_isVerifying := None |} st in
  let log :=
    match answer with
    | Js.Fulfilled None => []
    | Js.Fulfilled (Some e) => [ConsoleError "[AuthStore] Logout error:" e]
    | Js.Rejected e => [ConsoleError "[AuthStore] Logout error:" e]
    end in
  (set {| set_user := Some None;
          set_token := Some None;
          set_loading := Some false;
          set_error := Some None;
          set_isVerifying := Some false;
          set_isInitialized := None; set_isFirstTime := None |} st1,
   SignOut :: log).

Definition setFirstTimeDone (st : AuthState) : AuthState :=
  set {| set_user := None; set_token := None; set_loading := None;
         set_error := None; set_isInitialized := None;
         set_isFirstTime := Some false; set_isVerifying := None |} st.

(** *** The credential actions: [register], [login] and
    [handleGoogleSignInSuccess] *)

Record RegisterCredentials : Type := {
  register_email : string;
  register_password : string;
  register_username : string;
  register_firstName : option string;
  register_lastName : option string
}.

Record LoginCredentials : Type := {
  login_email : string;
  login_password : string
}.

(** The calls these actions make on the hosted auth client, and what
    they write to the console. *)
Inductive AuthCall : Type :=
| SignUp (credentials : RegisterCredentials)
| SignInWithPassword (credentials : LoginCredentials)
| SignInWithIdToken (provider idToken : string)
| LogError (label reason : string).

(** How an [async] action ends: it returns, or it throws an error,
    kept by its message. *)
Inductive Completion : Type :=
| Returned
| Thrown (message : string).

Record Run : Type := {
  after : AuthState;
  calls : list AuthCall;
  completion : Completion
}.

(** The message of the TypeError raised by reading a property of
    [undefined], which the engine words. *)
Variable typeErrorMessage : string.

(** [message || fallback]. *)
Definition orText (message fallback : string) : string :=
  if Js.truthy message then message else fallback.

(** [set({ loading: true, error: null })], the first line of each
    credential action. *)
Definition startLoading (st : AuthState) : AuthState :=
  set {| set_user := None; set_token := None;
         set_loading := Some true; set_error := Some None;
         set_isInitialized := None; set_isFirstTime := None;
         set_isVerifying := None |} st.

(** [set({ error: text, loading: false })], the write of each [catch]
    block. *)
Definition failed (text : string) (st : AuthState) : AuthState :=
  set {| set_user := None; set_token := None;
         set_loading := Some false; set_error := Some (Some text);
         set_isInitialized := None; set_isFirstTime := None;
         set_isVerifying := None |} st.

(** The write of a sign-in that went through. *)
Definition signedInAs (s : Session) (u : SessionUser) (st : AuthState)
  : AuthState :=
  set {| set_user := Some (Some (buildUser u));
         set_token := Some (Some (access_token s));
         set_error := Some None;
         set_loading := Some false;
         set_isVerifying := Some false;
         set_isInitialized := None; set_isFirstTime := None |} st.

(** [register]; [answer] is what [signUp] settles to: it rejects, or it
    fulfils with [{ data, error }]. *)
Definition register (st : AuthState) (credentials : RegisterCredentials)
  (answer : Js.Settled (option string)) : Run :=
  let st1 := startLoading st in
  match answer with
  | Js.Fulfilled None =>
      {| after := set {| set_user := None; set_token := None;
                         set_isVerifying := Some true;
                         set_loading := Some false;
                         set_error := Some None;
                         set_isInitialized := None;
                         set_isFirstTime := None |} st1;
         calls := [SignUp credentials];
         completion := Returned |}
  | Js.Fulfilled (Some e) =>
      {| after := failed e st1;
         calls := [SignUp credentials];
         completion := Thrown e |}
  | Js.Rejected e =>
      {| after := failed e st1;
         calls := [SignUp credentials];
         completion := Thrown e |}
  end.

(** The [catch] block of [login]. *)
Definition loginFailed (st1 : AuthState) (made : list AuthCall)
  (message : string) : Run :=
  {| after := failed (orText message "Login failed") st1;
     calls := made ++ [LogError "[AuthStore] Login failed:" message];
     completion := Thrown message |}.

(** [login]; [answer] is what [signInWithPassword] settles to. *)
Definition login (st : AuthState) (credentials : LoginCredentials)
  (answer : Js.Settled SessionReply) : Run :=
  let st1 := startLoading st in
  let made := [SignInWithPassword credentials] in
  match answer with
  | Js.Rejected e => loginFailed st1 made e
  | Js.Fulfilled r =>
      match reply_error r with
      | Some e =>
          {| after := set {| set_user := None; set_token := None;
                             set_loading := Some false;
                             set_error := Some (Some e);
                             set_isInitialized := None;
                             set_isFirstTime := None;
                             set_isVerifying := None |} st1;
             calls := made;
             completion := Returned |}
      | None =>
          match reply_session r with
          | None => loginFailed st1 made "No session returned during login"
          | Some s =>
              match session_user s with
              | None => loginFailed st1 made typeErrorMessage
              | Some u =>
                  {| after := signedInAs s u st1;
                     calls := made;
                     completion := Returned |}
              end
          end
      end
  end.

(** The [catch] block of [handleGoogleSignInSuccess]. *)
Definition googleFailed (st1 : AuthState) (made : list AuthCall)
  (message : string) : Run :=
  {| after := failed (orText message "Google sign-in failed") st1;
     calls := made ++ [LogError "[AuthStore] Google sign-in error:" message];
     completion := Thrown message |}.

(** [handleGoogleSignInSuccess]; [idToken] is [response?.data?.idToken]
    and [answer] is what [signInWithIdToken] settles to. *)
Definition handleGoogleSignInSuccess (st : AuthState)
  (idToken : option string) (answer : Js.Settled SessionReply) : Run :=
  let st1 := startLoading st in
  match idToken with
  | None => googleFailed st1 [] "No ID token in response"
  | Some tok =>
      if negb (Js.truthy tok)
      then googleFailed st1 [] "No ID token in response"
      else
        let made := [SignInWithIdToken "google" tok] in
        match answer with
        | Js.Rejected e => googleFailed st1 made e
        | Js.Fulfilled r =>
            match reply_error r with
            | Some e => googleFailed st1 made e
            | None =>
                match reply_session r with
                | None =>
                    googleFailed st1 made
                      "No session returned from Google sign-in"
                | Some s =>
                    match session_user s with
                    | None => googleFailed st1 made typeErrorMessage
                    | Some u =>
                        {| after := signedInAs s u st1;
                           calls := made;
                           completion := Returned |}
                    end
                end
            end
        end
  end.

End Store.

Arguments user {Number} _.
Arguments token {Number} _.
Arguments loading {Number} _.
Arguments error {Number} _.
Arguments isInitialized {Number} _.
Arguments isFirstTime {Number} _.
Arguments isVerifying {Number} _.
Arguments initialState {Number}.
Arguments logout {Number} st answer.
Arguments setFirstTimeDone {Number} st.
Arguments initialize {Number} parseInt st answer.
Arguments after {Number} _.
Arguments calls {Number} _.
Arguments completion {Number} _.
Arguments register {Number} st credentials answer.
Arguments login {Number} parseInt typeErrorMessage st credentials answer.
Arguments handleGoogleSignInSuccess {Number} parseInt typeErrorMessage
  st idToken answer.

(** Sample states, with numbers read as integers. *)
Definition signedIn : AuthState Z :=
  {| user := Some {| id := 7%Z; email := "ada@example.org";
                     username := "ada"; firstName := Some "Ada";
                     lastName := None; profilePicture := None |};
     token := Some "jwt-1"; loading := false;
     error := Some "stale"; isInitialized := true;
     isFirstTime := false; isVerifying := true |}.

Definition sampleParseInt (s : string) : Z :=
  if String.eqb s "7" then 7%Z else 0%Z.

Definition signedOut : AuthState Z := initialState.

Definition sampleTypeError : string :=
  "Cannot read properties of undefined (reading 'id')".

Definition adaLogin : LoginCredentials :=
  {| login_email := "ada@example.org"; login_password := "s3cret" |}.

Definition adaRegister : RegisterCredentials :=
  {| register_email := "ada@example.org"; register_password := "s3cret";
     register_username := "ada"; register_firstName := Some "Ada";
     register_lastName := None |}.

Definition sampleSession : Session :=
  {| session_user :=
       Some {| session_user_id := "7";
               session_user_email := Some "ada@example.org";
               user_metadata := None |};
     access_token := "jwt-2" |}.

End AuthStore.

(** ** The secure token manager, in src/components/ui/Avatar.tsx *)

Module SecureTokenManager.

(** The store that [createSecureStore()] of the external package
    returns: three asynchronous operations over a state of its own. *)
Class SecureStore (S : Type) : Type := {
  store_setItem : string -> string -> S -> Js.Settled unit * S;
  store_getItem : string -> S -> Js.Settled (option string) * S;
  store_removeItem : string -> S -> Js.Settled unit * S
}.

(** [BasicTokenManager] holds its store in the private field
    [secureStore]. *)
Record BasicTokenManager (S : Type) : Type := { secureStore : S }.
Arguments secureStore {S} _.
Arguments Build_BasicTokenManager {S} _.

Section Manager.

Context {S : Type} `{SecureStore S}.

Definition lift {A : Type} (r : A * S) : A * BasicTokenManager S :=
  (fst r, {| secureStore := snd r |}).

Definition setItem (key value : string) (m : BasicTokenManager S)
  : Js.Settled unit * BasicTokenManager S :=
  lift (store_setItem key value (secureStore m)).

Definition getItem (key : string) (m : BasicTokenManager S)
  : Js.Settled (option string) * BasicTokenManager S :=
  lift (store_getItem key (secureStore m)).

Definition removeItem (key : string) (m : BasicTokenManager S)
  : Js.Settled unit * BasicTokenManager S :=
  lift (store_removeItem key (secureStore m)).

End Manager.

(** A store kept in memory, to run the manager on. *)
Fixpoint lookup (key : string) (s : list (string * string)) : option string :=
  match s with
  | [] => None
  | (k, v) :: r => if String.eqb k key then Some v else lookup key r
  end.

Fixpoint erase (key : string) (s : list (string * string))
  : list (string * string) :=
  match s with
  | [] => []
  | (k, v) :: r => if String.eqb k key then erase key r else (k, v) :: erase key r
  end.

#[export] Instance memoryStore : SecureStore (list (string * string)) := {
  store_setItem k v s := (Js.Fulfilled tt, (k, v) :: erase k s);
  store_getItem k s := (Js.Fulfilled (lookup k s), s);
  store_removeItem k s := (Js.Fulfilled tt, erase k s)
}.

End SecureTokenManager.

(** ** src/app/(tabs)/trips.tsx *)

Module Trips.

(** The [Trip] type is declared outside these sources.  The screen reads
    the fields below; [status] and [destination] may be missing. *)
Record Trip : Type := {
  id : string;
  name : string;
  destination : option string;
  status : option string;
  endDate : string
}.

Inductive Tab : Type := Active | Recent | Cancelled.

(** [{ ...trip, status: s }]. *)
Definition withStatus (trip : Trip) (s : option string) : Trip :=
  {| id := id trip; name := name trip; destination := destination trip;
     status := s; endDate := endDate trip |}.

(** [trip.status?.toUpperCase()]. *)
Definition upperStatus (trip : Trip) : option string :=
  option_map Js.toUpperCase (status trip).

(** The first [map] of [filteredTrips]. *)
Definition normalize (trip : Trip) : Trip :=
  let normalizedStatus := upperStatus trip in
  let normalizedStatus :=
    if Js.strictEq normalizedStatus "PLANNED" then Some "PLANNING"
    else normalizedStatus in
  withStatus trip normalizedStatus.

(** The predicate of the search filter, [query] being the lowercased
    search text. *)
Definition matchesQuery (query : string) (trip : Trip) : bool :=
  Js.includes (Js.toLowerCase (name trip)) query
  || match destination trip with
     | Some d => Js.truthy d && Js.includes (Js.toLowerCase d) query
     | None => false
     end.

Section Filter.

(** [new Date(isoString)], read through its time value. *)
Variable parseDate : string -> Js.TimeValue.

(** The clock, [new Date()], read as one instant for the whole pass. *)
Variable now : Js.TimeValue.

Definition isActive (trip : Trip) : bool :=
  Js.strictEq (status trip) "ACTIVE" || Js.strictEq (status trip) "PLANNING".

Definition isRecent (trip : Trip) : bool :=
  Js.strictEq (status trip) "COMPLETED"
  || Js.dateLt (parseDate (endDate trip)) now.

Definition isCancelled (trip : Trip) : bool :=
  Js.strictEq (status trip) "CANCELLED".

(** The predicate the [switch] on the tab selects. *)
Definition tabPredicate (tab : Tab) : Trip -> bool :=
  match tab with
  | Active => isActive
  | Recent => isRecent
  | Cancelled => isCancelled
  end.

Definition filteredTrips (trips : list Trip) (activeTab : Tab)
  (searchQuery : string) : list Trip :=
  let filtered := trips in
  let filtered := List.map normalize filtered in
  let filtered :=
    if Js.truthy searchQuery then
      let query := Js.toLowerCase searchQuery in
      List.filter (matchesQuery query) filtered
    else filtered in
  let filtered :=
    List.map (fun trip => withStatus trip (upperStatus trip)) filtered in
  match activeTab with
  | Active => List.filter isActive filtered
  | Recent => List.filter isRecent filtered
  | Cancelled => List.filter isCancelled filtered
  end.

(** The wording of the tab rules, to compare [filteredTrips] with: the
    status is uppercased with PLANNED read as PLANNING, a trip matches
    the search when the lowercased search text occurs in its lowercased
    name or destination, and each tab keeps the trips its rule names. *)
Definition normalizedStatus (trip : Trip) : option string :=
  match status trip with
  | None => None
  | Some s =>
      if String.eqb (Js.toUpperCase s) "PLANNED" then Some "PLANNING"
      else Some (Js.toUpperCase s)
  end.

Definition searchMatches (searchQuery : string) (trip : Trip) : bool :=
  matchesQuery (Js.toLowerCase searchQuery) trip.

Definition tabRule (tab : Tab) (trip : Trip) : bool :=
  match tab with
  | Active =>
      Js.strictEq (normalizedStatus trip) "ACTIVE"
      || Js.strictEq (normalizedStatus trip) "PLANNING"
  | Cancelled => Js.strictEq (normalizedStatus trip) "CANCELLED"
  | Recent =>
      Js.strictEq (normalizedStatus trip) "COMPLETED"
      || Js.dateLt (parseDate (endDate trip)) now
  end.

Definition tabContents (trips : list Trip) (tab : Tab) (searchQuery : string)
  : list Trip :=
  List.map (fun trip => withStatus trip (normalizedStatus trip))
    (List.filter
       (fun trip => searchMatches searchQuery trip && tabRule tab trip)
       trips).

End Filter.

(** Sample trips: the first is still marked active although it ended on
    10 January 2025. *)
Definition overdueTrip : Trip :=
  {| id := "t1"; name := "Lisbon"; destination := Some "Portugal";
     status := Some "active"; endDate := "2025-01-10T00:00:00.000Z" |}.

Definition plannedTrip : Trip :=
  {| id := "t2"; name := "Oslo"; destination := None;
     status := Some "planned"; endDate := "2030-06-01T00:00:00.000Z" |}.

Definition sampleTrips : list Trip := [overdueTrip; plannedTrip].

(** A trip in a status no tab asks for, with an end date still ahead. *)
Definition draftTrip : Trip :=
  {| id := "t3"; name := "Kyoto"; destination := Some "";
     status := Some "draft"; endDate := "2030-06-01T00:00:00.000Z" |}.

(** 1 March 2025. *)
Definition sampleNow : Js.TimeValue := Some 1740787200000%Z.

End Trips.

(** ** The avatar, [Avatar], in src/components/ui/Avatar.tsx *)

Module Avatar.

Inductive AvatarSize : Type := xs | sm | md | lg | xl.

Definition AVATAR_SIZES (size : AvatarSize) : nat :=
  match size with
  | xs => 24
  | sm => 32
  | md => 40
  | lg => 48
  | xl => 56
  end.

(** [Pick<User, 'firstName' | 'lastName' | 'profilePicture'>]. *)
Record AvatarUser : Type := {
  firstName : option string;
  lastName : option string;
  profilePicture : option string
}.

(** [user?.field]. *)
Definition field (user : option AvatarUser)
  (f : AvatarUser -> option string) : option string :=
  match user with
  | Some u => f u
  | None => None
  end.

(** [text?.[0] || '']. *)
Definition firstLetter (text : option string) : string :=
  match text with
  | Some (String c _) => String c EmptyString
  | _ => EmptyString
  end.

Definition initials (user : option AvatarUser) : string :=
  if negb (Js.truthyOpt (field user firstName))
     && negb (Js.truthyOpt (field user lastName))
  then "?"
  else (Js.toUpperCase (firstLetter (field user firstName))
        ++ Js.toUpperCase (firstLetter (field user lastName)))%string.

(** What the component draws inside its round container of side
    [dimension]; the size defaults to [md]. *)
Inductive View : Type :=
| Picture (uri : string) (dimension : nat)
| Initials (text : string) (dimension : nat).

Definition Avatar (user : option AvatarUser) (size : option AvatarSize)
  : View :=
  let dimension :=
    AVATAR_SIZES (match size with Some s => s | None => md end) in
  match field user profilePicture with
  | Some uri =>
      if Js.truthy uri then Picture uri dimension
      else Initials (initials user) dimension
  | None => Initials (initials user) dimension
  end.

(** No character of [s] is a lowercase ASCII letter. *)
Fixpoint noLowercase (s : string) : bool :=
  match s with
  | EmptyString => true
  | String c r => negb (Js.isLowerAZ c) && noLowercase r
  end.

End Avatar.

(** ** The onboarding provider, in src/components/ui/Avatar.tsx *)

Module Onboarding.

(** The async key-value storage of the external package: two
    operations over a state of its own. *)
Class AsyncStorage (S : Type) : Type := {
  storage_getItem : string -> S -> Js.Settled (option string) * S;
  storage_setItem : string -> string -> S -> Js.Settled unit * S
}.

Section Provider.

Context {S : Type} `{AsyncStorage S}.

(** [checkFirstLaunch], run once when the provider mounts; it returns
    the [isFirstTime] cell and the storage as it leaves them.  A
    rejection of either call ends it where it stands. *)
Definition checkFirstLaunch (isFirstTime : bool) (s : S) : bool * S :=
  match storage_getItem "isFirstLaunch" s with
  | (Js.Rejected _, s1) => (isFirstTime, s1)
  | (Js.Fulfilled firstLaunch, s1) =>
      if negb (Js.truthyOpt firstLaunch)
      then (true, snd (storage_setItem "isFirstLaunch" "true" s1))
      else (isFirstTime, s1)
  end.

(** One start of the app: the provider mounts with [useState(false)]. *)
Definition launch (s : S) : bool * S := checkFirstLaunch false s.

(** What the provider needs of the storage: reading leaves it as it is,
    and a value that was written is the value read back. *)
Definition readsLeaveStorage : Prop :=
  forall key s, snd (storage_getItem key s) = s.

Definition writesAreReadBack : Prop :=
  forall key value s,
    fst (storage_setItem key value s) = Js.Fulfilled tt ->
    fst (storage_getItem key (snd (storage_setItem key value s)))
      = Js.Fulfilled (Some value).

End Provider.

(** A storage kept in memory, to run the provider on. *)
#[export] Instance memoryStorage : AsyncStorage (list (string * string)) := {
  storage_getItem k s := (Js.Fulfilled (SecureTokenManager.lookup k s), s);
  storage_setItem k v s :=
    (Js.Fulfilled tt, (k, v) :: SecureTokenManager.erase k s)
}.

End Onboarding.

(** ** The verify-email screen, in src/unnamed/part_000 *)

Module AuthScreens.

Inductive Effect : Type :=
| RouterReplace (route : string)
| GetUser.

Definition loginRoute : string := "/(auth)/login".

(** The listener [VerifyEmailScreen] puts on deep links. *)
Definition handleDeepLink (url : string) : list Effect :=
  if Js.includes url "verify" then [RouterReplace loginRoute] else [].

(** The listener [VerifyEmailScreen] puts on auth state changes;
    [confirmedAt] is [user?.email_confirmed_at] of the user that
    [getUser] answers with. *)
Definition handleAuthChange (event : string) (confirmedAt : option string)
  : list Effect :=
  if String.eqb event "USER_UPDATED" then
    GetUser :: (if Js.truthyOpt confirmedAt
                then [RouterReplace loginRoute] else [])
  else [].

(** What [VerifyEmailScreen] returns for the [isVerifying] of the auth
    store: [None] is the [null] it returns after redirecting. *)
Definition VerifyEmailScreen (isVerifying : bool)
  : list Effect * option string :=
  if negb isVerifying then ([RouterReplace loginRoute], None)
  else ([], Some "Verify Your Email").

End AuthScreens.

(** ** The rest of the trips screen, src/app/(tabs)/trips.tsx *)

Module TripsScreen.

Inductive Effect : Type :=
| FetchTrips
| CreateTrip (name description : string) (destination : string)
             (startDate endDate : Js.TimeValue)
| SetCreateModalVisible (value : bool)
| SetIsRefreshing (value : bool)
| ConsoleLog (text : string)
| ConsoleError (label reason : string).

(** The effect that fetches the trips; it runs on mount and when
    [token] or [isInitialized] changes. *)
Definition fetchOnMount (isInitialized : bool) (token : option string)
  : list Effect :=
  if isInitialized && Js.truthyOpt token then [FetchTrips]
  else [ConsoleLog "Auth not initialized or token not available yet."].

(** The two cells of the search bar. *)
Record SearchState : Type := {
  searchExpanded : bool;
  searchQuery : string
}.

(** The callback [toggleSearch] runs when its animation ends.  Each
    render makes its own [toggleSearch], which reads the
    [searchExpanded] of that render: [captured] is that value, and [st]
    the cells as they are when the callback runs. *)
Definition toggleSearch (captured : bool) (st : SearchState) : SearchState :=
  {| searchExpanded := negb captured;
     searchQuery := if negb captured then "" else searchQuery st |}.

(** [onChangeText] of the search input. *)
Definition setSearchQuery (text : string) (st : SearchState) : SearchState :=
  {| searchExpanded := searchExpanded st; searchQuery := text |}.

(** [handleRefresh]; [fetched] is what [fetchTrips()] settles to. *)
Definition handleRefresh (fetched : Js.Settled unit) : list Effect :=
  [ConsoleLog "Pull-to-refresh triggered"; SetIsRefreshing true; FetchTrips]
  ++ match fetched with
     | Js.Fulfilled _ => [ConsoleLog "Refresh completed successfully"]
     | Js.Rejected e => [ConsoleError "Failed to refresh trips:" e]
     end
  ++ [SetIsRefreshing false].

Definition handleCreateTrip : list Effect := [SetCreateModalVisible true].

Definition handleModalClose : list Effect := [SetCreateModalVisible false].

Section Screen.

Variable parseDate : string -> Js.TimeValue.
Variable now : Js.TimeValue.

(** [handleTripSubmit]; [created] is what [createTrip(...)] settles to.
    It returns its effects and what its own promise settles to. *)
Definition handleTripSubmit (tripData : CreateTripModal.Trip)
  (created : Js.Settled unit) : list Effect * Js.Settled unit :=
  let call :=
    CreateTrip (CreateTripModal.name tripData)
               (CreateTripModal.description tripData)
               (CreateTripModal.destination tripData)
               (parseDate (CreateTripModal.startDate tripData))
               (parseDate (CreateTripModal.endDate tripData)) in
  match created with
  | Js.Fulfilled _ => ([call; SetCreateModalVisible false], Js.Fulfilled tt)
  | Js.Rejected e =>
      ([call; ConsoleError "Failed to create trip:" e], Js.Fulfilled tt)
  end.

(** The modal as the screen mounts it: [onSubmit] is
    [handleTripSubmit] and [onClose] is [handleModalClose].  The result
    is the run of the modal's [handleSubmit] beside the effects of the
    screen, in the order they happen. *)
Definition submitFromModal (tripData : CreateTripModal.Trip)
  (created : Js.Settled unit)
  : list CreateTripModal.Effect * list Effect :=
  let (valid, _) := CreateTripModal.validateForm parseDate tripData in
  if negb valid then
    (CreateTripModal.handleSubmit parseDate tripData (Js.Fulfilled tt), [])
  else
    let (effects, settled) := handleTripSubmit tripData created in
    let modal := CreateTripModal.handleSubmit parseDate tripData settled in
    (modal,
     effects
     ++ (if List.existsb
              (fun e => match e with
                        | CreateTripModal.OnClose => true
                        | _ => false
                        end) modal
         then handleModalClose else [])).

(** What the scroll view holds. *)
Inductive Content : Type :=
| Loading
| TripList (trips : list Trips.Trip)
| NoTrips (text : string).

Definition content (tripsLoading : bool) (trips : list Trips.Trip)
  (activeTab : Trips.Tab) (st : SearchState) : Content :=
  let filteredTrips :=
    Trips.filteredTrips parseDate now trips activeTab (searchQuery st) in
  if tripsLoading then Loading
  else if 0 <? List.length filteredTrips then TripList filteredTrips
  else NoTrips "No trips found for this filter".

End Screen.

End TripsScreen.

(* ===================================================================== *)
(** * Part II. The properties                                            *)
(* ===================================================================== *)

(** ** Strings *)

Module JsFacts.

Import Js.

Lemma strictEq_true (a : option string) (b : string) :
  strictEq a b = true <-> a = Some b.
Proof.
  destruct a as [s|]; simpl.
  - rewrite String.eqb_eq. split; congruence.
  - split; discriminate.
Qed.

Lemma strictEq_false (a : option string) (b : string) :
  strictEq a b = false <-> a <> Some b.
Proof.
  rewrite <- strictEq_true. destruct (strictEq a b); split; congruence.
Qed.

Lemma upperChar_idempotent (c : ascii) : upperChar (upperChar c) = upperChar c.
Proof.
  destruct c as [[] [] [] [] [] [] [] []]; vm_compute; reflexivity.
Qed.

Lemma toUpperCase_idempotent (s : string) :
  toUpperCase (toUpperCase s) = toUpperCase s.
Proof.
  induction s as [|c r IH]; simpl.
  - reflexivity.
  - rewrite upperChar_idempotent, IH. reflexivity.
Qed.

Lemma includes_empty (s : string) : includes s "" = true.
Proof. destruct s; reflexivity. Qed.

Lemma truthy_false (s : string) : truthy s = false <-> s = "".
Proof.
  unfold truthy. rewrite negb_false_iff. apply String.eqb_eq.
Qed.

Lemma trimStart_empty (s : string) :
  trimStart s = "" <-> allWhiteSpace s = true.
Proof.
  induction s as [|c r IH]; simpl.
  - split; reflexivity.
  - destruct (isWhiteSpace c); simpl.
    + exact IH.
    + split; discriminate.
Qed.

Lemma allWhiteSpace_trimStart (s : string) :
  allWhiteSpace (trimStart s) = allWhiteSpace s.
Proof.
  induction s as [|c r IH]; simpl.
  - reflexivity.
  - destruct (isWhiteSpace c) eqn:Ec; simpl.
    + exact IH.
    + rewrite Ec. reflexivity.
Qed.

Lemma allWhiteSpace_reverse (s acc : string) :
  allWhiteSpace (reverse s acc) = allWhiteSpace s && allWhiteSpace acc.
Proof.
  revert acc. induction s as [|c r IH]; intros acc; simpl.
  - reflexivity.
  - rewrite IH. simpl.
    destruct (isWhiteSpace c), (allWhiteSpace r); reflexivity.
Qed.

Lemma reverse_empty (s acc : string) :
  reverse s acc = "" <-> s = "" /\ acc = "".
Proof.
  revert acc. induction s as [|c r IH]; intros acc; simpl.
  - split; [intros ->; split; reflexivity | intros [_ ->]; reflexivity].
  - rewrite IH. split; [intros [_ H]; discriminate | intros [H _]; discriminate].
Qed.

Lemma trimEnd_empty (s : string) :
  trimEnd s = "" <-> allWhiteSpace s = true.
Proof.
  unfold trimEnd. rewrite reverse_empty, trimStart_empty, allWhiteSpace_reverse.
  simpl. rewrite andb_true_r. tauto.
Qed.

(** [s.trim()] is empty exactly when [s] holds white space only. *)
Lemma trim_empty (s : string) :
  trim s = "" <-> allWhiteSpace s = true.
Proof.
  unfold trim. rewrite trimEnd_empty, allWhiteSpace_trimStart. tauto.
Qed.

Lemma not_truthy_trim (s : string) :
  negb (truthy (trim s)) = allWhiteSpace s.
Proof.
  unfold truthy. rewrite negb_involutive.
  destruct (allWhiteSpace s) eqn:E.
  - apply String.eqb_eq, trim_empty. exact E.
  - apply String.eqb_neq. intros H. apply trim_empty in H. congruence.
Qed.

End JsFacts.

(** ** The todo list *)

Module TodoListSpec.

Import TodoList.

Lemma handleLoadMore_cases (p : TodoListProps) (st : TodoStore) :
  (loading st = false /\ hasMore st = true /\
   handleLoadMore p st =
     [Call (fetchTodos (tripId p) (List.length (todos st)) 20) Unhandled])
  \/ ((loading st = true \/ hasMore st = false) /\ handleLoadMore p st = []).
Proof.
  unfold handleLoadMore.
  destruct (loading st), (hasMore st); simpl; auto.
Qed.

Lemma loadMoreStep_appends (p : TodoListProps) (st st' : TodoStore) :
  loadMoreStep p st st' -> exists added, todos st' = todos st ++ added.
Proof.
  intros Hstep. destruct Hstep as [st _ | st st' page _ Hpage].
  - exists []. rewrite app_nil_r. reflexivity.
  - exists page. exact Hpage.
Qed.

Lemma loadMoreSteps_appends (p : TodoListProps) (st st' : TodoStore) :
  loadMoreSteps p st st' -> exists added, todos st' = todos st ++ added.
Proof.
  induction 1 as [st | st1 st2 st3 Hstep _ IH].
  - exists []. rewrite app_nil_r. reflexivity.
  - destruct (loadMoreStep_appends _ _ _ Hstep) as [a1 E1].
    destruct IH as [a2 E2].
    exists (a1 ++ a2). rewrite E2, E1, app_assoc. reflexivity.
Qed.

Lemma prefix_kept {A : Type} (l added : list A) (i : nat) (x : A) :
  nth_error l i = Some x -> nth_error (l ++ added) i = Some x.
Proof.
  intros Hx. rewrite nth_error_app1; [exact Hx|].
  apply nth_error_Some. congruence.
Qed.

(** C1.  The first page is asked for at offset 0; load-more asks for the
    page that starts at the number of todos already loaded; both with
    limit 20.  Load-more asks only when the store is not loading and
    reports [hasMore]; and over any run of load-more steps the todos
    loaded before stay where they are, new ones coming after them. *)
Theorem load_more_append_only (p : TodoListProps) (st : TodoStore) :
  initialLoad p = [Call (fetchTodos (tripId p) 0 20) Unhandled]
  /\ (forall e, In e (handleLoadMore p st) ->
     e = Call (fetchTodos (tripId p) (List.length (todos st)) 20) Unhandled)
  /\ (handleLoadMore p st <> [] <-> loading st = false /\ hasMore st = true)
  /\ (forall st', loadMoreSteps p st st' ->
        exists added,
          todos st' = todos st ++ added
          /\ forall i t, nth_error (todos st) i = Some t ->
                         nth_error (todos st') i = Some t).
Proof.
  split; [reflexivity|]. split; [|split].
  - intros e He.
    destruct (handleLoadMore_cases p st) as [(_ & _ & E) | (_ & E)];
      rewrite E in He; simpl in He.
    + destruct He as [He | []]. symmetry. exact He.
    + contradiction.
  - destruct (handleLoadMore_cases p st) as [(Hl & Hm & E) | (Hor & E)];
      rewrite E; split.
    + intros _. split; assumption.
    + intros _. discriminate.
    + intros Hne. exfalso. apply Hne. reflexivity.
    + intros [Hl Hm]. destruct Hor; congruence.
  - intros st' Hrun.
    destruct (loadMoreSteps_appends _ _ _ Hrun) as [added E].
    exists added. split; [exact E|].
    intros i t Hi. rewrite E. apply prefix_kept. exact Hi.
Qed.

Lemma connectionBanner_cases (status : option string) :
  (status = Some "CONNECTING"
   /\ connectionBanner status = [ConnectionBanner connectingText])
  \/ (status = Some "RECONNECTING"
      /\ connectionBanner status = [ConnectionBanner reconnectingText])
  \/ (status = Some "ERROR"
      /\ connectionBanner status = [ConnectionError connectionErrorText])
  \/ (status <> Some "CONNECTING" /\ status <> Some "RECONNECTING"
      /\ status <> Some "ERROR" /\ connectionBanner status = []).
Proof.
  unfold connectionBanner.
  destruct (Js.strictEq status "CONNECTING") eqn:Ec.
  - apply JsFacts.strictEq_true in Ec. subst status. left. split; reflexivity.
  - destruct (Js.strictEq status "RECONNECTING") eqn:Er.
    + apply JsFacts.strictEq_true in Er. subst status.
      right; left. split; reflexivity.
    + destruct (Js.strictEq status "ERROR") eqn:Ee.
      * apply JsFacts.strictEq_true in Ee. subst status.
        right; right; left. split; reflexivity.
      * apply JsFacts.strictEq_false in Ec, Er, Ee.
        right; right; right. simpl. auto.
Qed.

Section Rendered.

Variable getColorForUUID : string -> string.

Lemma list_screen_surfaces (p : TodoListProps) (st : TodoStore) :
  surfacesOf (TodoListContent getColorForUUID p st) =
    if isListScreen (TodoListContent getColorForUUID p st)
    then connectionBanner (connectionStatus st) else [].
Proof.
  unfold TodoListContent.
  destruct (loading st && (List.length (todos st) =? 0)); [reflexivity|].
  destruct (Js.truthyOpt (error st)); [reflexivity|].
  destruct (List.length (todos st) =? 0); reflexivity.
Qed.

Lemma list_screen_drawn (p : TodoListProps) (st : TodoStore) :
  isListScreen (TodoListContent getColorForUUID p st) =
    negb (List.length (todos st) =? 0) && negb (Js.truthyOpt (error st)).
Proof.
  unfold TodoListContent.
  destruct (List.length (todos st) =? 0), (loading st),
    (Js.truthyOpt (error st)); reflexivity.
Qed.

Lemma connectionBanner_spec (status : option string) :
  (In (ConnectionBanner connectingText) (connectionBanner status)
     <-> status = Some "CONNECTING")
  /\ (In (ConnectionBanner reconnectingText) (connectionBanner status)
        <-> status = Some "RECONNECTING")
  /\ (In (ConnectionError connectionErrorText) (connectionBanner status)
        <-> status = Some "ERROR")
  /\ (connectionBanner status = []
        <-> status <> Some "CONNECTING" /\ status <> Some "RECONNECTING"
            /\ status <> Some "ERROR")
  /\ (forall s, In s (connectionBanner status) ->
        List.length (connectionBanner status) = 1
        /\ (s = ConnectionBanner connectingText
            \/ s = ConnectionBanner reconnectingText
            \/ s = ConnectionError connectionErrorText)).
Proof.
  destruct (connectionBanner_cases status)
    as [(E & B) | [(E & B) | [(E & B) | (N1 & N2 & N3 & B)]]];
    rewrite B; try subst status; simpl;
    repeat match goal with |- _ /\ _ => split end;
    try (split; intros; try discriminate; try congruence; tauto);
    try (intros s [<- | []]; split; [reflexivity | tauto]);
    try (intros s []).
  all: split; intros H; try discriminate; try tauto.
  all: try (destruct H as [H | []]; discriminate).
Qed.

(** C2, as amended.  When the list itself is drawn, that is when at
    least one todo is loaded and the store holds no error message, the
    banner above it is a function of the connection status: it reads
    'Connecting...' exactly for CONNECTING, 'Reconnecting...' exactly for
    RECONNECTING, the connection-error message exactly for ERROR, and
    nothing is drawn for any other status, CONNECTED and an absent
    connection included.  On the loading, error and empty screens no
    banner is drawn, whatever the status. *)
Theorem banner_follows_status (p : TodoListProps) (st : TodoStore) :
  (todos st <> [] -> Js.truthyOpt (error st) = false ->
     (In (ConnectionBanner connectingText)
         (surfacesOf (TodoListContent getColorForUUID p st))
        <-> connectionStatus st = Some "CONNECTING")
     /\ (In (ConnectionBanner reconnectingText)
            (surfacesOf (TodoListContent getColorForUUID p st))
           <-> connectionStatus st = Some "RECONNECTING")
     /\ (In (ConnectionError connectionErrorText)
            (surfacesOf (TodoListContent getColorForUUID p st))
           <-> connectionStatus st = Some "ERROR")
     /\ (surfacesOf (TodoListContent getColorForUUID p st) = []
           <-> connectionStatus st <> Some "CONNECTING"
               /\ connectionStatus st <> Some "RECONNECTING"
               /\ connectionStatus st <> Some "ERROR")
     /\ (forall s,
           In s (surfacesOf (TodoListContent getColorForUUID p st)) ->
           List.length (surfacesOf (TodoListContent getColorForUUID p st)) = 1
           /\ (s = ConnectionBanner connectingText
               \/ s = ConnectionBanner reconnectingText
               \/ s = ConnectionError connectionErrorText)))
  /\ (todos st = [] \/ Js.truthyOpt (error st) = true ->
       surfacesOf (TodoListContent getColorForUUID p st) = []).
Proof.
  rewrite list_screen_surfaces, list_screen_drawn.
  split.
  - intros Hsome Herr. rewrite Herr.
    destruct (todos st) as [|t rest]; [contradiction|]. simpl.
    apply connectionBanner_spec.
  - intros [Hnone | Herr].
    + rewrite Hnone. reflexivity.
    + rewrite Herr, andb_false_r. reflexivity.
Qed.

(** C3.  The status the list works with is the [status] field of the
    store's connection object, read as it is ([undefined] when there is
    no connection object); the view depends on the connection object
    through that field alone, and no handler of the list writes it: the
    only calls it makes are [fetchTodos], [updateTodo] and
    [deleteTodo]. *)
Theorem status_mirrors_connection (p : TodoListProps) (st : TodoStore) :
  connectionStatus (withConnection st None) = None
  /\ (forall ws, connectionStatus (withConnection st (Some ws))
                 = WsConnection.status ws)
  /\ (forall ws ws', WsConnection.status ws = WsConnection.status ws' ->
        TodoListContent getColorForUUID p (withConnection st (Some ws)) =
        TodoListContent getColorForUUID p (withConnection st (Some ws')))
  /\ surfacesOf (TodoListContent getColorForUUID p st) =
       (if isListScreen (TodoListContent getColorForUUID p st)
        then connectionBanner (connectionStatus st) else []).
Proof.
  split; [reflexivity|]. split; [intros ws; reflexivity|]. split.
  - intros ws ws' Hsame.
    unfold TodoListContent, connectionStatus, handleLoadMore; simpl.
    rewrite Hsame. reflexivity.
  - apply list_screen_surfaces.
Qed.

Lemma error_screen_shown (p : TodoListProps) (st : TodoStore) (msg : string) :
  error st = Some msg -> msg <> "" ->
  (loading st && (List.length (todos st) =? 0)) = false ->
  TodoListContent getColorForUUID p st = ErrorScreen msg (handleRetry p).
Proof.
  intros He Hmsg Hnot. unfold TodoListContent.
  rewrite Hnot, He. simpl.
  apply String.eqb_neq in Hmsg. unfold Js.truthy. rewrite Hmsg. reflexivity.
Qed.

Lemma error_screen_only (p : TodoListProps) (st : TodoStore)
  (msg : string) (onPress : list Event) :
  TodoListContent getColorForUUID p st = ErrorScreen msg onPress ->
  error st = Some msg /\ onPress = handleRetry p.
Proof.
  unfold TodoListContent.
  destruct (loading st && (List.length (todos st) =? 0)); [discriminate|].
  destruct (error st) as [e|]; simpl.
  - destruct (Js.truthy e).
    + intros H. injection H as <- <-. split; reflexivity.
    + destruct (List.length (todos st) =? 0); discriminate.
  - destruct (List.length (todos st) =? 0); discriminate.
Qed.

(** C4.  Whenever the error screen is drawn, for whatever trip and
    however many todos are loaded, its Retry button calls [fetchTodos]
    with offset 0 and limit 20; a rejection of that call is sent to the
    console.  The error screen is drawn for a non-empty error message
    unless the store is loading with no todo loaded. *)
Theorem retry_restarts_from_zero (p : TodoListProps) (st : TodoStore) :
  handleRetry p = [Call (fetchTodos (tripId p) 0 20) ConsoleError]
  /\ (forall msg onPress,
        TodoListContent getColorForUUID p st = ErrorScreen msg onPress ->
        error st = Some msg
        /\ onPress = [Call (fetchTodos (tripId p) 0 20) ConsoleError])
  /\ (forall msg,
        error st = Some msg -> msg <> "" ->
        (loading st && (List.length (todos st) =? 0)) = false ->
        TodoListContent getColorForUUID p st =
          ErrorScreen msg [Call (fetchTodos (tripId p) 0 20) ConsoleError]).
Proof.
  split; [reflexivity|]. split.
  - intros msg onPress Hview.
    destruct (error_screen_only p st msg onPress Hview) as [He Hp].
    split; [exact He | exact Hp].
  - intros msg He Hmsg Hnot.
    rewrite (error_screen_shown p st msg He Hmsg Hnot). reflexivity.
Qed.

Lemma rows_are_rendered_todos (p : TodoListProps) (st : TodoStore)
  (row : TodoItemProps) :
  In row (rowsOf (TodoListContent getColorForUUID p st)) ->
  In (todo row) (todos st) /\ row = renderItem getColorForUUID st (todo row).
Proof.
  unfold TodoListContent.
  destruct (loading st && (List.length (todos st) =? 0)); [intros []|].
  destruct (Js.truthyOpt (error st)); [intros []|].
  destruct (List.length (todos st) =? 0); [intros []|].
  simpl. intros Hin. apply in_map_iff in Hin.
  destruct Hin as (item & <- & Hitem). split; [exact Hitem | reflexivity].
Qed.

(** C6.  The complete action of a todo's row asks the store to set the
    status to INCOMPLETE when the todo is COMPLETE and to COMPLETE
    otherwise, and the delete action asks the store to delete that
    todo's id; both hold for every row the list draws. *)
Theorem complete_toggles_delete_targets (st : TodoStore) (item : Todo.t) :
  (Todo.status item = "COMPLETE" ->
     onComplete (renderItem getColorForUUID st item) =
       [Call (updateTodo (Todo.id item) "INCOMPLETE") Unhandled])
  /\ (Todo.status item <> "COMPLETE" ->
       onComplete (renderItem getColorForUUID st item) =
         [Call (updateTodo (Todo.id item) "COMPLETE") Unhandled])
  /\ onDelete (renderItem getColorForUUID st item) =
       [Call (deleteTodo (Todo.id item)) Unhandled]
  /\ todo (renderItem getColorForUUID st item) = item
  /\ (forall p row,
        In row (rowsOf (TodoListContent getColorForUUID p st)) ->
        In (todo row) (todos st)
        /\ onComplete row =
             [Call (updateTodo (Todo.id (todo row))
                      (if String.eqb (Todo.status (todo row)) "COMPLETE"
                       then "INCOMPLETE" else "COMPLETE")) Unhandled]
        /\ onDelete row = [Call (deleteTodo (Todo.id (todo row))) Unhandled]).
Proof.
  split; [|split; [|split; [|split]]].
  - intros Hs. simpl. rewrite Hs. reflexivity.
  - intros Hs. simpl. apply String.eqb_neq in Hs. rewrite Hs. reflexivity.
  - reflexivity.
  - reflexivity.
  - intros p row Hrow.
    destruct (rows_are_rendered_todos p st row Hrow) as [Hin Hrender].
    split; [exact Hin|]. rewrite Hrender. simpl. split; reflexivity.
Qed.

End Rendered.

Lemma load_more_append_only_witness :
  loadMoreSteps sampleProps sampleStore sampleStoreNext
  /\ exists added,
       todos sampleStoreNext = todos sampleStore ++ added
       /\ forall i t, nth_error (todos sampleStore) i = Some t ->
                      nth_error (todos sampleStoreNext) i = Some t.
Proof.
  assert (Hrun : loadMoreSteps sampleProps sampleStore sampleStoreNext).
  { apply loadMore_next with (st2 := sampleStoreNext).
    - apply loadMore_fetched with (page := [todoB]); reflexivity.
    - apply loadMore_done. }
  split; [exact Hrun|].
  exact (proj2 (proj2 (proj2 (load_more_append_only sampleProps sampleStore)))
           sampleStoreNext Hrun).
Defined.

Lemma banner_follows_status_witness :
  (In (ConnectionBanner connectingText)
      (surfacesOf (TodoListContent sampleColor sampleProps sampleStore))
   <-> connectionStatus sampleStore = Some "CONNECTING")
  /\ surfacesOf (TodoListContent sampleColor sampleProps sampleStoreFailed)
       = [].
Proof.
  split.
  - apply (proj1 (banner_follows_status sampleColor sampleProps sampleStore)).
    + discriminate.
    + reflexivity.
  - apply (proj2 (banner_follows_status sampleColor sampleProps
                    sampleStoreFailed)).
    right. reflexivity.
Defined.

(** C2, as written, fails: with the subscription CONNECTING and no todo
    loaded yet, the empty screen is returned and it carries no banner. *)
Lemma banner_follows_status_counterexample :
  connectionStatus sampleStoreEmpty = Some "CONNECTING"
  /\ TodoListContent sampleColor sampleProps sampleStoreEmpty = EmptyScreen []
  /\ ~ In (ConnectionBanner connectingText)
         (surfacesOf (TodoListContent sampleColor sampleProps sampleStoreEmpty))
  /\ ~ (forall p st,
          In (ConnectionBanner connectingText)
             (surfacesOf (TodoListContent sampleColor p st))
          <-> connectionStatus st = Some "CONNECTING").
Proof.
  split; [reflexivity|]. split; [reflexivity|].
  split; [intros []|].
  intros Hall.
  destruct (proj2 (Hall sampleProps sampleStoreEmpty) eq_refl).
Qed.

Lemma status_mirrors_connection_witness :
  TodoListContent sampleColor sampleProps
    (withConnection sampleStore
       (Some (WsConnection.mk (Some "RECONNECTING") "todos:trip-1"))) =
  TodoListContent sampleColor sampleProps
    (withConnection sampleStore
       (Some (WsConnection.mk (Some "RECONNECTING") "presence:trip-1"))).
Proof.
  apply (status_mirrors_connection sampleColor sampleProps sampleStore).
  reflexivity.
Defined.

Lemma retry_restarts_from_zero_witness :
  TodoListContent sampleColor sampleProps sampleStoreFailed =
    ErrorScreen "Network request failed"
      [Call (fetchTodos "trip-1" 0 20) ConsoleError].
Proof.
  apply (retry_restarts_from_zero sampleColor sampleProps sampleStoreFailed).
  - reflexivity.
  - discriminate.
  - reflexivity.
Defined.

Lemma complete_toggles_delete_targets_witness :
  onComplete (renderItem sampleColor sampleStore todoA) =
    [Call (updateTodo "a" "INCOMPLETE") Unhandled]
  /\ onComplete (renderItem sampleColor sampleStore todoB) =
       [Call (updateTodo "b" "COMPLETE") Unhandled].
Proof.
  split.
  - apply (complete_toggles_delete_targets sampleColor sampleStore todoA).
    reflexivity.
  - apply (complete_toggles_delete_targets sampleColor sampleStore todoB).
    discriminate.
Defined.

End TodoListSpec.

(** ** The trip-creation form *)

Module CreateTripModalSpec.

Import CreateTripModal.

Section Form.

Variable parseDate : string -> Js.TimeValue.

Lemma handleSubmit_cases (trip : Trip) (submitted : Js.Settled unit) :
  handleSubmit parseDate trip submitted =
    if Js.allWhiteSpace (name trip)
    then validationAlert "Please enter a trip name."
    else if Js.allWhiteSpace (destination trip)
    then validationAlert "Please enter a destination."
    else if Js.dateLt (parseDate (endDate trip)) (parseDate (startDate trip))
    then validationAlert "End date must be after start date."
    else submission trip submitted.
Proof.
  unfold handleSubmit, validateForm.
  rewrite !JsFacts.not_truthy_trim.
  destruct (Js.allWhiteSpace (name trip)); [reflexivity|].
  destruct (Js.allWhiteSpace (destination trip)); [reflexivity|].
  destruct (Js.dateLt (parseDate (endDate trip)) (parseDate (startDate trip)));
    [reflexivity|].
  destruct submitted; reflexivity.
Qed.

(** C5, as amended.  For a name and a destination of ASCII text,
    submission applies three rules coded in the form itself, in this
    order: a name that is empty or all white space, a destination that
    is empty or all white space, and an end date before the start date
    are each refused with a 'Validation Error' alert and without calling
    [onSubmit]; every other form is passed to [onSubmit]. *)
Theorem submit_validates_locally (trip : Trip) (submitted : Js.Settled unit) :
  Js.isAscii (name trip) = true ->
  Js.isAscii (destination trip) = true ->
  (Js.trim (name trip) = "" ->
     handleSubmit parseDate trip submitted =
       [Alert "Validation Error" "Please enter a trip name."])
  /\ (Js.trim (name trip) <> "" -> Js.trim (destination trip) = "" ->
      handleSubmit parseDate trip submitted =
        [Alert "Validation Error" "Please enter a destination."])
  /\ (Js.trim (name trip) <> "" -> Js.trim (destination trip) <> "" ->
      Js.dateLt (parseDate (endDate trip)) (parseDate (startDate trip)) = true ->
      handleSubmit parseDate trip submitted =
        [Alert "Validation Error" "End date must be after start date."])
  /\ (Js.trim (name trip) <> "" -> Js.trim (destination trip) <> "" ->
      Js.dateLt (parseDate (endDate trip)) (parseDate (startDate trip)) = false ->
      handleSubmit parseDate trip submitted = submission trip submitted)
  /\ (In (OnSubmit trip) (handleSubmit parseDate trip submitted) <->
      Js.trim (name trip) <> "" /\ Js.trim (destination trip) <> ""
      /\ Js.dateLt (parseDate (endDate trip)) (parseDate (startDate trip))
         = false)
  /\ (Js.trim (name trip) = "" <-> Js.allWhiteSpace (name trip) = true)
  /\ (Js.trim (destination trip) = ""
      <-> Js.allWhiteSpace (destination trip) = true).
Proof.
  intros _ _.
  rewrite handleSubmit_cases, !JsFacts.trim_empty.
  destruct (Js.allWhiteSpace (name trip));
    destruct (Js.allWhiteSpace (destination trip));
    destruct (Js.dateLt (parseDate (endDate trip))
                (parseDate (startDate trip)));
    unfold validationAlert, submission; simpl;
    repeat match goal with |- _ /\ _ => split end;
    try tauto; try congruence;
    try (intros; exfalso; congruence);
    try (split; [intros [H | []]; discriminate
                | intros (H1 & H2 & H3); congruence]).
  all: split; [intros _; repeat split; congruence | intros _; tauto].
Qed.

End Form.

(** C5, as written, fails: a form with an empty name is refused by the
    form's own rule, and [onSubmit] is never called. *)
Lemma submit_validates_locally_counterexample :
  handleSubmit Js.sampleParseDate blankTrip (Js.Fulfilled tt) =
    [Alert "Validation Error" "Please enter a trip name."]
  /\ ~ In (OnSubmit blankTrip)
         (handleSubmit Js.sampleParseDate blankTrip (Js.Fulfilled tt))
  /\ handleSubmit Js.sampleParseDate backwardsTrip (Js.Fulfilled tt) =
       [Alert "Validation Error" "End date must be after start date."]
  /\ ~ (forall parseDate trip submitted,
          In (OnSubmit trip) (handleSubmit parseDate trip submitted)).
Proof.
  assert (Hno : ~ In (OnSubmit blankTrip)
                  (handleSubmit Js.sampleParseDate blankTrip (Js.Fulfilled tt))).
  { vm_compute. intros [H | []]. discriminate. }
  split; [reflexivity|]. split; [exact Hno|]. split; [reflexivity|].
  intros Hall. apply Hno. apply Hall.
Qed.

Lemma submit_validates_locally_witness :
  handleSubmit Js.sampleParseDate lisbonTrip (Js.Fulfilled tt) =
    [SetLoading true; OnSubmit lisbonTrip; OnClose; SetLoading false]
  /\ handleSubmit Js.sampleParseDate backwardsTrip (Js.Rejected "offline") =
       [Alert "Validation Error" "End date must be after start date."].
Proof.
  split.
  - apply (submit_validates_locally Js.sampleParseDate lisbonTrip
             (Js.Fulfilled tt) eq_refl eq_refl).
    + vm_compute. discriminate.
    + vm_compute. discriminate.
    + vm_compute. reflexivity.
  - apply (submit_validates_locally Js.sampleParseDate backwardsTrip
             (Js.Rejected "offline") eq_refl eq_refl).
    + vm_compute. discriminate.
    + vm_compute. discriminate.
    + vm_compute. reflexivity.
Defined.

End CreateTripModalSpec.

(** ** The auth store *)

Module AuthStoreSpec.

Import AuthStore.

Section Store.

Variable Number : Type.
Variable parseInt : string -> Number.

(** C8.  From every state, and whether [signOut] fulfils without error,
    fulfils with an error or rejects, logout leaves the store with no
    user, no token, no error, and with [loading] and [isVerifying]
    false; [isInitialized] and [isFirstTime] keep their values, and the
    remote sign-out has been called once. *)
Theorem logout_clears_session (st : AuthState Number)
  (answer : Js.Settled (option string)) :
  let st' := fst (logout st answer) in
  user st' = None
  /\ token st' = None
  /\ loading st' = false
  /\ error st' = None
  /\ isVerifying st' = false
  /\ isInitialized st' = isInitialized st
  /\ isFirstTime st' = isFirstTime st
  /\ exists log,
       snd (logout st answer) = SignOut :: log
       /\ forall e, In e log ->
            exists reason, e = ConsoleError "[AuthStore] Logout error:" reason.
Proof.
  simpl. repeat split.
  destruct answer as [[e|] | e]; eexists; (split; [reflexivity|]); simpl;
    intros e' He'; try contradiction;
    destruct He' as [<- | []]; eexists; reflexivity.
Qed.

Lemma initialize_marks_initialized (st : AuthState Number)
  (answer : Js.Settled SessionReply) :
  loading st = false -> isInitialized st = false ->
  isInitialized (fst (initialize parseInt st answer)) = true
  /\ loading (fst (initialize parseInt st answer)) = false.
Proof.
  intros Hl Hi. unfold initialize. rewrite Hl, Hi. simpl.
  destruct (recoverSession answer) as [[s|] log]; simpl.
  - destruct (session_user s); simpl; split; reflexivity.
  - split; reflexivity.
Qed.

Lemma initialize_guard (st : AuthState Number)
  (answer : Js.Settled SessionReply) :
  loading st = true \/ isInitialized st = true ->
  initialize parseInt st answer = (st, []).
Proof.
  intros Hguard. unfold initialize.
  destruct Hguard as [-> | ->]; [|rewrite orb_true_r]; reflexivity.
Qed.

(** C9.  In a state that is initialized, or in which a load is in
    progress, [initialize] returns at once: no remote call is made and
    the state that comes back is the state that went in, field for
    field.  So running [initialize] a second time after a run that went
    through changes nothing. *)
Theorem initialize_idempotent (st : AuthState Number)
  (answer : Js.Settled SessionReply) :
  (loading st = true \/ isInitialized st = true ->
     initialize parseInt st answer = (st, []))
  /\ (forall again,
        initialize parseInt (fst (initialize parseInt st answer)) again =
          (fst (initialize parseInt st answer), [])).
Proof.
  split; [apply initialize_guard|].
  intros again.
  destruct (loading st) eqn:Hl.
  - rewrite (initialize_guard st answer) by (left; exact Hl). simpl.
    apply initialize_guard. left. exact Hl.
  - destruct (isInitialized st) eqn:Hi.
    + rewrite (initialize_guard st answer) by (right; exact Hi). simpl.
      apply initialize_guard. right. exact Hi.
    + apply initialize_guard. right.
      apply (initialize_marks_initialized st answer Hl Hi).
Qed.

End Store.

Lemma logout_clears_session_witness :
  user (fst (logout signedIn (Js.Rejected "offline"))) = None
  /\ token (fst (logout signedIn (Js.Rejected "offline"))) = None
  /\ error (fst (logout signedIn (Js.Rejected "offline"))) = None
  /\ isVerifying (fst (logout signedIn (Js.Rejected "offline"))) = false.
Proof.
  pose proof (logout_clears_session Z signedIn (Js.Rejected "offline")) as H.
  cbv zeta in H. destruct H as (Hu & Ht & _ & He & Hv & _).
  split; [exact Hu|]. split; [exact Ht|]. split; [exact He | exact Hv].
Defined.

Lemma initialize_idempotent_witness :
  isInitialized signedIn = true
  /\ initialize sampleParseInt signedIn
       (Js.Fulfilled {| reply_session := Some sampleSession;
                        reply_error := None |})
     = (signedIn, []).
Proof.
  split; [reflexivity|].
  apply (initialize_idempotent Z sampleParseInt signedIn).
  right. reflexivity.
Defined.

End AuthStoreSpec.

(** ** The secure token manager *)

Module SecureTokenManagerSpec.

Import SecureTokenManager.

(** C7.  Over any secure store, each operation of the token manager
    settles to what the store's operation of the same name settles to,
    on the same key and value, and leaves the store as that operation
    leaves it. *)
Theorem manager_delegates (S : Type) (store : SecureStore S)
  (key value : string) (m : BasicTokenManager S) :
  (fst (setItem key value m) = fst (store_setItem key value (secureStore m))
   /\ secureStore (snd (setItem key value m)) =
        snd (store_setItem key value (secureStore m)))
  /\ (fst (getItem key m) = fst (store_getItem key (secureStore m))
      /\ secureStore (snd (getItem key m)) =
           snd (store_getItem key (secureStore m)))
  /\ (fst (removeItem key m) = fst (store_removeItem key (secureStore m))
      /\ secureStore (snd (removeItem key m)) =
           snd (store_removeItem key (secureStore m))).
Proof.
  unfold setItem, getItem, removeItem, lift. simpl.
  repeat split; reflexivity.
Qed.

Lemma manager_delegates_witness :
  fst (getItem "theme" {| secureStore := [("theme", "dark")] |}) =
    Js.Fulfilled (Some "dark").
Proof.
  rewrite (proj1 (proj1 (proj2
             (manager_delegates _ memoryStore "theme" ""
                {| secureStore := [("theme", "dark")] |})))).
  reflexivity.
Defined.

(** The manager run on the store kept in memory. *)
Example manager_round_trip :
  let m0 := {| secureStore := [("theme", "dark")] |} in
  let m1 := snd (setItem "token" "jwt-1" m0) in
  let m2 := snd (removeItem "theme" m1) in
  fst (getItem "token" m2) = Js.Fulfilled (Some "jwt-1")
  /\ fst (getItem "theme" m2) = Js.Fulfilled None
  /\ fst (getItem "theme" m1) = Js.Fulfilled (Some "dark").
Proof. repeat split; reflexivity. Qed.

End SecureTokenManagerSpec.

(** ** The trip tabs *)

Module TripsSpec.

Import Trips.

Lemma filter_of_map {A B : Type} (f : B -> bool) (g : A -> B) (l : list A) :
  List.filter f (List.map g l) = List.map g (List.filter (fun a => f (g a)) l).
Proof.
  induction l as [|a l IH]; simpl.
  - reflexivity.
  - destruct (f (g a)); simpl; rewrite IH; reflexivity.
Qed.

Lemma filter_of_filter {A : Type} (f g : A -> bool) (l : list A) :
  List.filter f (List.filter g l) = List.filter (fun a => g a && f a) l.
Proof.
  induction l as [|a l IH]; simpl.
  - reflexivity.
  - destruct (g a); simpl.
    + destruct (f a); rewrite IH; reflexivity.
    + exact IH.
Qed.

Lemma filter_all {A : Type} (f : A -> bool) (l : list A) :
  (forall a, f a = true) -> List.filter f l = l.
Proof.
  intros Hall. induction l as [|a l IH]; simpl.
  - reflexivity.
  - rewrite Hall, IH. reflexivity.
Qed.

Lemma matchesQuery_empty (trip : Trip) : matchesQuery "" trip = true.
Proof.
  unfold matchesQuery. rewrite JsFacts.includes_empty. reflexivity.
Qed.

(** The guard [if (searchQuery)] changes nothing: the empty search text
    occurs in every name. *)
Lemma search_guard (searchQuery : string) (l : list Trip) :
  (if Js.truthy searchQuery
   then List.filter (matchesQuery (Js.toLowerCase searchQuery)) l
   else l)
  = List.filter (searchMatches searchQuery) l.
Proof.
  unfold searchMatches.
  destruct (Js.truthy searchQuery) eqn:Hq; [reflexivity|].
  apply JsFacts.truthy_false in Hq. subst searchQuery. simpl.
  symmetry. apply filter_all, matchesQuery_empty.
Qed.

Lemma matchesQuery_normalize (query : string) (trip : Trip) :
  matchesQuery query (normalize trip) = matchesQuery query trip.
Proof. reflexivity. Qed.

(** The two status passes of [filteredTrips] together are the
    normalization of the status. *)
Lemma status_passes (trip : Trip) :
  withStatus (normalize trip) (upperStatus (normalize trip))
  = withStatus trip (normalizedStatus trip).
Proof.
  unfold normalize, normalizedStatus, upperStatus, withStatus; simpl.
  destruct (status trip) as [s|]; simpl; [|reflexivity].
  destruct (String.eqb (Js.toUpperCase s) "PLANNED"); simpl.
  - reflexivity.
  - rewrite JsFacts.toUpperCase_idempotent. reflexivity.
Qed.

Section Filter.

Variable parseDate : string -> Js.TimeValue.
Variable now : Js.TimeValue.

Lemma tabPredicate_rule (tab : Tab) (trip : Trip) :
  tabPredicate parseDate now tab (withStatus trip (normalizedStatus trip))
  = tabRule parseDate now tab trip.
Proof. destruct tab; reflexivity. Qed.

Lemma filteredTrips_tabContents (trips : list Trip) (tab : Tab)
  (searchQuery : string) :
  filteredTrips parseDate now trips tab searchQuery
  = tabContents parseDate now trips tab searchQuery.
Proof.
  unfold filteredTrips, tabContents.
  rewrite search_guard.
  replace (match tab with
           | Active => List.filter isActive _
           | Recent => List.filter (isRecent parseDate now) _
           | Cancelled => List.filter isCancelled _
           end)
    with (List.filter (tabPredicate parseDate now tab)
            (List.map (fun trip => withStatus trip (upperStatus trip))
               (List.filter (searchMatches searchQuery)
                  (List.map normalize trips))))
    by (destruct tab; reflexivity).
  rewrite (filter_of_map (searchMatches searchQuery) normalize).
  rewrite List.map_map, filter_of_map, filter_of_filter.
  rewrite (List.map_ext _ _ status_passes).
  f_equal. apply List.filter_ext. intros trip.
  rewrite status_passes, tabPredicate_rule. reflexivity.
Qed.

(** C10.  [filteredTrips] uppercases every status and reads PLANNED as
    PLANNING; the Active tab is exactly the search-matching trips whose
    normalized status is ACTIVE or PLANNING, the Cancelled tab exactly
    those with CANCELLED, the Recent tab exactly those with COMPLETED or
    an end date before now; the order of the trips is kept.  A matching
    trip that is ACTIVE or PLANNING and has ended is therefore under
    both Active and Recent. *)
Theorem tabs_filter_normalized (trips : list Trip) (searchQuery : string) :
  (forall tab,
     filteredTrips parseDate now trips tab searchQuery =
       List.map (fun trip => withStatus trip (normalizedStatus trip))
         (List.filter
            (fun trip => searchMatches searchQuery trip
                         && tabRule parseDate now tab trip) trips))
  /\ (forall tab shown,
        In shown (filteredTrips parseDate now trips tab searchQuery) <->
        exists trip,
          In trip trips
          /\ shown = withStatus trip (normalizedStatus trip)
          /\ searchMatches searchQuery trip = true
          /\ match tab with
             | Active => normalizedStatus trip = Some "ACTIVE"
                         \/ normalizedStatus trip = Some "PLANNING"
             | Cancelled => normalizedStatus trip = Some "CANCELLED"
             | Recent => normalizedStatus trip = Some "COMPLETED"
                         \/ Js.dateLt (parseDate (endDate trip)) now = true
             end)
  /\ (forall trip,
        In trip trips ->
        searchMatches searchQuery trip = true ->
        normalizedStatus trip = Some "ACTIVE"
        \/ normalizedStatus trip = Some "PLANNING" ->
        Js.dateLt (parseDate (endDate trip)) now = true ->
        In (withStatus trip (normalizedStatus trip))
           (filteredTrips parseDate now trips Active searchQuery)
        /\ In (withStatus trip (normalizedStatus trip))
              (filteredTrips parseDate now trips Recent searchQuery)).
Proof.
  assert (Hmem : forall tab shown,
    In shown (filteredTrips parseDate now trips tab searchQuery) <->
    exists trip,
      In trip trips
      /\ shown = withStatus trip (normalizedStatus trip)
      /\ searchMatches searchQuery trip = true
      /\ match tab with
         | Active => normalizedStatus trip = Some "ACTIVE"
                     \/ normalizedStatus trip = Some "PLANNING"
         | Cancelled => normalizedStatus trip = Some "CANCELLED"
         | Recent => normalizedStatus trip = Some "COMPLETED"
                     \/ Js.dateLt (parseDate (endDate trip)) now = true
         end).
  { intros tab shown.
    rewrite filteredTrips_tabContents. unfold tabContents.
    rewrite in_map_iff.
    split.
    - intros (trip & <- & Hin). apply filter_In in Hin.
      destruct Hin as [Hin Hkeep]. apply andb_true_iff in Hkeep.
      destruct Hkeep as [Hs Hr].
      exists trip. split; [exact Hin|]. split; [reflexivity|].
      split; [exact Hs|].
      destruct tab; simpl in Hr;
        rewrite ?orb_true_iff, ?JsFacts.strictEq_true in Hr; exact Hr.
    - intros (trip & Hin & -> & Hs & Hr).
      exists trip. split; [reflexivity|].
      apply filter_In. split; [exact Hin|].
      rewrite Hs. simpl.
      destruct tab; simpl;
        rewrite ?orb_true_iff, ?JsFacts.strictEq_true; exact Hr. }
  split; [|split].
  - intros tab. apply filteredTrips_tabContents.
  - exact Hmem.
  - intros trip Hin Hs Hst Hpast. split; apply Hmem; exists trip.
    + repeat split; assumption.
    + repeat split; try assumption. right. exact Hpast.
Qed.

End Filter.

Lemma tabs_filter_normalized_witness :
  In overdueTrip sampleTrips
  /\ In (withStatus overdueTrip (Some "ACTIVE"))
        (filteredTrips Js.sampleParseDate sampleNow sampleTrips Active "lis")
  /\ In (withStatus overdueTrip (Some "ACTIVE"))
        (filteredTrips Js.sampleParseDate sampleNow sampleTrips Recent "lis").
Proof.
  split; [left; reflexivity|].
  apply (proj2 (proj2 (tabs_filter_normalized Js.sampleParseDate sampleNow
                          sampleTrips "lis")) overdueTrip).
  - left. reflexivity.
  - reflexivity.
  - left. reflexivity.
  - reflexivity.
Defined.

(** The tabs run on the sample trips. *)
Example tabs_on_samples :
  filteredTrips Js.sampleParseDate sampleNow sampleTrips Active "" =
    [withStatus overdueTrip (Some "ACTIVE");
     withStatus plannedTrip (Some "PLANNING")]
  /\ filteredTrips Js.sampleParseDate sampleNow sampleTrips Recent "" =
       [withStatus overdueTrip (Some "ACTIVE")]
  /\ filteredTrips Js.sampleParseDate sampleNow sampleTrips Cancelled "" = []
  /\ filteredTrips Js.sampleParseDate sampleNow sampleTrips Active "PORT" =
       [withStatus overdueTrip (Some "ACTIVE")].
Proof. repeat split; reflexivity. Qed.

End TripsSpec.

(** ** More on strings: substrings and letter case *)

Module JsStrings.

Import Js.

Lemma prefix_append (q s : string) :
  String.prefix q s = true <-> exists b, s = (q ++ b)%string.
Proof.
  revert s. induction q as [|c q IH]; intros s; simpl.
  - destruct s; simpl; split; eauto.
  - destruct s as [|d s]; simpl.
    + split; [discriminate | intros [b Hb]; discriminate].
    + destruct (Ascii.ascii_dec c d) as [->|Hne].
      * rewrite IH. split; intros [b Hb]; exists b; congruence.
      * split; [discriminate | intros [b Hb]; congruence].
Qed.

Lemma includes_here (s q : string) :
  includes s q =
    if String.prefix q s then true
    else match s with
         | EmptyString => false
         | String _ r => includes r q
         end.
Proof. destruct s; reflexivity. Qed.

(** [s.includes(q)] holds exactly when [q] stands somewhere in [s]. *)
Lemma includes_occurs (s q : string) :
  includes s q = true <-> exists a b, s = (a ++ q ++ b)%string.
Proof.
  induction s as [|c s IH]; rewrite includes_here;
    destruct (String.prefix q _) eqn:Hp.
  - split; [intros _ | reflexivity].
    apply prefix_append in Hp. destruct Hp as [b Hb].
    exists "", b. exact Hb.
  - split; [discriminate|]. intros (a & b & Hab).
    destruct a; simpl in Hab; [|discriminate].
    assert (String.prefix q "" = true) by (apply prefix_append; eauto).
    congruence.
  - split; [intros _ | reflexivity].
    apply prefix_append in Hp. destruct Hp as [b Hb].
    exists "", b. exact Hb.
  - rewrite IH. split.
    + intros (a & b & Hab). exists (String c a), b. simpl. congruence.
    + intros (a & b & Hab). destruct a as [|d a]; simpl in Hab.
      * assert (String.prefix q (String c s) = true)
          by (apply prefix_append; eauto).
        congruence.
      * exists a, b. congruence.
Qed.

Lemma lowerChar_upperChar (c : ascii) : lowerChar (upperChar c) = lowerChar c.
Proof.
  destruct c as [[] [] [] [] [] [] [] []]; vm_compute; reflexivity.
Qed.

Lemma toLowerCase_toUpperCase (s : string) :
  toLowerCase (toUpperCase s) = toLowerCase s.
Proof.
  induction s as [|c r IH]; simpl.
  - reflexivity.
  - rewrite lowerChar_upperChar, IH. reflexivity.
Qed.

Lemma upperChar_not_lower (c : ascii) : isLowerAZ (upperChar c) = false.
Proof.
  destruct c as [[] [] [] [] [] [] [] []]; vm_compute; reflexivity.
Qed.

Lemma truthy_true (s : string) : truthy s = true <-> s <> "".
Proof.
  unfold truthy. rewrite negb_true_iff. apply String.eqb_neq.
Qed.

End JsStrings.

(** ** The credential actions of the auth store *)

Module AuthStoreActions.

Import AuthStore.

Section Store.

Variable Number : Type.
Variable parseInt : string -> Number.
Variable typeErrorMessage : string.

Ltac by_cases_on_answer :=
  repeat match goal with
         | |- context [match ?x with _ => _ end] => destruct x eqn:?; simpl
         | |- context [if ?b then _ else _] => destruct b eqn:?; simpl
         end.

(** No action that talks to the backend leaves the store loading,
    however the backend answers. *)
Theorem actions_end_loading (st : AuthState Number)
  (lc : LoginCredentials) (rc : RegisterCredentials) (idToken : option string)
  (session : Js.Settled SessionReply) (plain : Js.Settled (option string)) :
  loading (after (login parseInt typeErrorMessage st lc session)) = false
  /\ loading (after (register st rc plain)) = false
  /\ loading (after (handleGoogleSignInSuccess parseInt typeErrorMessage st idToken session)) = false
  /\ loading (fst (logout st plain)) = false.
Proof.
  repeat split.
  - unfold login, loginFailed. by_cases_on_answer; reflexivity.
  - unfold register. by_cases_on_answer; reflexivity.
  - unfold handleGoogleSignInSuccess, googleFailed.
    by_cases_on_answer; reflexivity.
Qed.



(** [register] never signs anyone in: user and token stay as they
    were.  It returns only when [signUp] fulfils without error, and then
    the store is verifying with no error; on an error object or a
    rejection it throws it and stores its message, and [isVerifying]
    keeps its value. *)
Theorem register_outcomes (st : AuthState Number) (rc : RegisterCredentials)
  (answer : Js.Settled (option string)) :
  let r := register st rc answer in
  user (after r) = user st /\ token (after r) = token st
  /\ calls r = [SignUp rc]
  /\ (completion r = Returned <-> answer = Js.Fulfilled None)
  /\ (completion r = Returned ->
        isVerifying (after r) = true /\ error (after r) = None)
  /\ (forall m, completion r = Thrown m ->
        error (after r) = Some m
        /\ isVerifying (after r) = isVerifying st
        /\ (answer = Js.Fulfilled (Some m) \/ answer = Js.Rejected m)).
Proof.
  cbv zeta. unfold register.
  destruct answer as [[e|] | e]; simpl;
    repeat match goal with |- _ /\ _ => split end;
    try reflexivity;
    try (split; intros; try discriminate; congruence);
    try (intros H; try discriminate; split; reflexivity);
    intros m Hm; try discriminate; injection Hm as <-;
    repeat split; auto.
Qed.

(** Without an ID token in the response, missing or empty,
    [handleGoogleSignInSuccess] makes no call to the backend: it stores
    'No ID token in response', throws it, and leaves user and token
    alone.  With a token its first call hands that token to the backend
    as a google token, and a null [error] afterwards means a user is in
    the store. *)
Theorem google_sign_in_outcomes (st : AuthState Number)
  (idToken : option string) (answer : Js.Settled SessionReply) :
  let r := handleGoogleSignInSuccess parseInt typeErrorMessage st idToken answer in
  (idToken = None \/ idToken = Some "" ->
     calls r = [LogError "[AuthStore] Google sign-in error:"
                         "No ID token in response"]
     /\ completion r = Thrown "No ID token in response"
     /\ error (after r) = Some "No ID token in response"
     /\ user (after r) = user st /\ token (after r) = token st)
  /\ (forall tok, idToken = Some tok -> tok <> "" ->
        exists rest, calls r = SignInWithIdToken "google" tok :: rest)
  /\ (forall m, completion r = Thrown m ->
        error (after r) = Some (orText m "Google sign-in failed")
        /\ user (after r) = user st /\ token (after r) = token st)
  /\ (error (after r) = None ->
        completion r = Returned /\ user (after r) <> None
        /\ token (after r) <> None).
Proof.
  cbv zeta. unfold handleGoogleSignInSuccess, googleFailed.
  destruct idToken as [tok|]; simpl.
  - destruct (Js.truthy tok) eqn:Ht; simpl.
    + apply JsStrings.truthy_true in Ht.
      destruct answer as [reply | e]; simpl;
        [destruct (reply_error reply) as [e|]; simpl;
         [|destruct (reply_session reply) as [s|]; simpl;
           [destruct (session_user s) as [u|]; simpl|]]|];
        (split; [intros [H | H]; congruence|]);
        (split; [intros tok' Htok _; injection Htok as <-; eexists;
                 reflexivity|]);
        (split; [intros m Hm; try discriminate; injection Hm as <-;
                 repeat split; reflexivity|]);
        try (intros H; discriminate);
        intros _; repeat split; discriminate.
    + apply JsFacts.truthy_false in Ht. subst tok.
      split; [intros _; repeat split; reflexivity|].
      split; [intros tok' Htok Hne; congruence|].
      split; [intros m Hm; injection Hm as <-; repeat split; reflexivity|].
      intros H; discriminate.
  - split; [intros _; repeat split; reflexivity|].
    split; [intros tok' Htok; discriminate|].
    split; [intros m Hm; injection Hm as <-; repeat split; reflexivity|].
    intros H; discriminate.
Qed.

(** Once the store is initialized, a logout followed by [initialize]
    does not bring the session back: [initialize] returns at once,
    makes no call, and the user stays signed out even when the backend
    still holds a session. *)
Theorem logout_then_initialize (st : AuthState Number)
  (signOut : Js.Settled (option string)) (session : Js.Settled SessionReply) :
  isInitialized st = true ->
  initialize parseInt (fst (logout st signOut)) session
    = (fst (logout st signOut), [])
  /\ user (fst (initialize parseInt (fst (logout st signOut)) session)) = None
  /\ token (fst (initialize parseInt (fst (logout st signOut)) session)) = None.
Proof.
  intros Hinit.
  assert (E : initialize parseInt (fst (logout st signOut)) session
              = (fst (logout st signOut), [])).
  { unfold initialize. simpl. rewrite Hinit. reflexivity. }
  rewrite E. repeat split.
Qed.


End Store.


Lemma register_outcomes_witness :
  completion (register signedOut adaRegister (Js.Fulfilled None)) = Returned
  /\ isVerifying (after (register signedOut adaRegister (Js.Fulfilled None)))
     = true.
Proof.
  split; [reflexivity|].
  pose proof (register_outcomes Z signedOut adaRegister (Js.Fulfilled None))
    as H.
  cbv zeta in H. destruct H as (_ & _ & _ & _ & Hreturned & _).
  destruct (Hreturned eq_refl) as (Hv & _). exact Hv.
Defined.

Lemma google_sign_in_outcomes_witness :
  calls (handleGoogleSignInSuccess sampleParseInt sampleTypeError signedIn
           (Some "") (Js.Rejected "offline"))
  = [LogError "[AuthStore] Google sign-in error:" "No ID token in response"].
Proof.
  pose proof (google_sign_in_outcomes Z sampleParseInt sampleTypeError
                signedIn (Some "") (Js.Rejected "offline")) as H.
  cbv zeta in H. destruct H as (Hnone & _).
  destruct (Hnone (or_intror eq_refl)) as (Hcalls & _). exact Hcalls.
Defined.

Lemma logout_then_initialize_witness :
  isInitialized signedIn = true
  /\ user (fst (initialize sampleParseInt
                  (fst (logout signedIn (Js.Fulfilled None)))
                  (Js.Fulfilled {| reply_session := Some sampleSession;
                                   reply_error := None |}))) = None.
Proof.
  split; [reflexivity|].
  apply (logout_then_initialize Z sampleParseInt signedIn (Js.Fulfilled None)
           (Js.Fulfilled {| reply_session := Some sampleSession;
                            reply_error := None |})).
  reflexivity.
Defined.


End AuthStoreActions.

(** ** The avatar *)

Module AvatarSpec.

Import Avatar.

Lemma firstLetter_short (text : option string) :
  String.length (Js.toUpperCase (firstLetter text)) <= 1.
Proof. destruct text as [[|c r]|]; simpl; auto. Qed.

Lemma firstLetter_present (text : option string) :
  Js.truthyOpt text = true ->
  String.length (Js.toUpperCase (firstLetter text)) = 1.
Proof.
  destruct text as [[|c r]|]; simpl; try discriminate. reflexivity.
Qed.

Lemma firstLetter_upper (text : option string) :
  noLowercase (Js.toUpperCase (firstLetter text)) = true.
Proof.
  destruct text as [[|c r]|]; simpl; try reflexivity.
  rewrite JsStrings.upperChar_not_lower. reflexivity.
Qed.

Lemma length_append (a b : string) :
  String.length (a ++ b)%string = String.length a + String.length b.
Proof. induction a as [|c a IH]; simpl; [reflexivity | rewrite IH; reflexivity]. Qed.

Lemma noLowercase_append (a b : string) :
  noLowercase (a ++ b)%string = noLowercase a && noLowercase b.
Proof.
  induction a as [|c a IH]; simpl; [reflexivity|].
  rewrite IH, andb_assoc. reflexivity.
Qed.

Lemma upperChar_table (c : ascii) :
  (Js.isLowerAZ c = true ->
     nat_of_ascii (Js.upperChar c) = nat_of_ascii c - 32)
  /\ (Js.isLowerAZ c = false -> Js.upperChar c = c).
Proof.
  destruct c as [[] [] [] [] [] [] [] []]; vm_compute;
    split; intros H; try discriminate; reflexivity.
Qed.

(** For names of ASCII text the initials are pinned letter by letter.
    They are '?' when there is no user or both names are missing or
    empty; otherwise they are the first letter of each name that is
    present, first name before last name, a letter from a to z put in
    upper case (its code lowered by 32) and any other character kept.
    So they hold one or two characters, none of them a lowercase
    letter.  The picture, when there is a non-empty one, takes the
    place of the initials. *)
Theorem initials_shape (user : option AvatarUser) (size : option AvatarSize) :
  Js.isAsciiOpt (field user firstName) = true ->
  Js.isAsciiOpt (field user lastName) = true ->
  (Js.truthyOpt (field user firstName) = false ->
   Js.truthyOpt (field user lastName) = false -> initials user = "?")
  /\ (forall c r,
        field user firstName = Some (String c r) ->
        Js.truthyOpt (field user lastName) = false ->
        initials user = String (Js.upperChar c) "")
  /\ (forall d r,
        Js.truthyOpt (field user firstName) = false ->
        field user lastName = Some (String d r) ->
        initials user = String (Js.upperChar d) "")
  /\ (forall c r d r',
        field user firstName = Some (String c r) ->
        field user lastName = Some (String d r') ->
        initials user = String (Js.upperChar c) (String (Js.upperChar d) ""))
  /\ (forall c,
        (Js.isLowerAZ c = true ->
           nat_of_ascii (Js.upperChar c) = nat_of_ascii c - 32)
        /\ (Js.isLowerAZ c = false -> Js.upperChar c = c))
  /\ 1 <= String.length (initials user) <= 2
  /\ noLowercase (initials user) = true
  /\ (Js.truthyOpt (field user profilePicture) = false ->
      Avatar user size
        = Initials (initials user)
            (AVATAR_SIZES (match size with Some s => s | None => md end)))
  /\ (forall uri, field user profilePicture = Some uri -> uri <> "" ->
      Avatar user size
        = Picture uri
            (AVATAR_SIZES (match size with Some s => s | None => md end))).
Proof.
  intros _ _.
  assert (Hcases :
    (Js.truthyOpt (field user firstName) = false
     /\ Js.truthyOpt (field user lastName) = false /\ initials user = "?")
    \/ (exists c r, field user firstName = Some (String c r)
          /\ Js.truthyOpt (field user lastName) = false
          /\ initials user = String (Js.upperChar c) "")
    \/ (exists d r, Js.truthyOpt (field user firstName) = false
          /\ field user lastName = Some (String d r)
          /\ initials user = String (Js.upperChar d) "")
    \/ (exists c r d r', field user firstName = Some (String c r)
          /\ field user lastName = Some (String d r')
          /\ initials user
             = String (Js.upperChar c) (String (Js.upperChar d) ""))).
  { unfold initials.
    destruct (field user firstName) as [[|c r]|],
      (field user lastName) as [[|d r']|]; simpl; eauto 10. }
  split; [|split; [|split; [|split; [|split; [|split; [|split; [|split]]]]]]].
  - intros Hf Hl. unfold initials. rewrite Hf, Hl. reflexivity.
  - intros c r Hf Hl. unfold initials. rewrite Hf, Hl.
    destruct (field user lastName) as [[|d r']|]; simpl in *;
      try discriminate; reflexivity.
  - intros d r Hf Hl. unfold initials. rewrite Hf, Hl.
    destruct (field user firstName) as [[|c r']|]; simpl in *;
      try discriminate; reflexivity.
  - intros c r d r' Hf Hl. unfold initials. rewrite Hf, Hl. reflexivity.
  - exact upperChar_table.
  - destruct Hcases as [(_ & _ & ->) | [(c & r & _ & _ & ->)
      | [(d & r & _ & _ & ->) | (c & r & d & r' & _ & _ & ->)]]];
      simpl; auto.
  - destruct Hcases as [(_ & _ & ->) | [(c & r & _ & _ & ->)
      | [(d & r & _ & _ & ->) | (c & r & d & r' & _ & _ & ->)]]];
      simpl; rewrite ?JsStrings.upperChar_not_lower; reflexivity.
  - unfold Avatar.
    destruct (field user profilePicture) as [uri|]; simpl.
    + intros ->. reflexivity.
    + reflexivity.
  - intros uri Huri Hne. unfold Avatar. rewrite Huri.
    apply JsStrings.truthy_true in Hne. rewrite Hne. reflexivity.
Qed.

Lemma initials_shape_witness :
  initials (Some {| firstName := Some "ada"; lastName := Some "lovelace";
                    profilePicture := None |}) = "AL".
Proof.
  pose proof (initials_shape
                (Some {| firstName := Some "ada"; lastName := Some "lovelace";
                         profilePicture := None |}) None eq_refl eq_refl)
    as H.
  destruct H as (_ & _ & _ & Hboth & _).
  exact (Hboth _ _ _ _ eq_refl eq_refl).
Defined.

End AvatarSpec.

(** ** The onboarding provider *)

Module OnboardingSpec.

Import Onboarding.

Section Provider.

Context {S : Type} `{AsyncStorage S}.

(** Over a storage that keeps what is written to it, the first launch
    is reported once: a launch that finds no flag, or an empty one,
    reports a first time and writes the flag, and the launch after it
    reports none and leaves the storage as it found it.  A launch that
    finds any non-empty flag reports none. *)
Theorem first_launch_reported_once (s : S) :
  readsLeaveStorage -> writesAreReadBack ->
  (forall flag,
     fst (storage_getItem "isFirstLaunch" s) = Js.Fulfilled flag ->
     Js.truthyOpt flag = false ->
     fst (storage_setItem "isFirstLaunch" "true" s) = Js.Fulfilled tt ->
     fst (launch s) = true
     /\ snd (launch s) = snd (storage_setItem "isFirstLaunch" "true" s)
     /\ launch (snd (launch s)) = (false, snd (launch s)))
  /\ (forall flag,
        fst (storage_getItem "isFirstLaunch" s) = Js.Fulfilled (Some flag) ->
        flag <> "" -> launch s = (false, s)).
Proof.
  intros Hread Hback. unfold launch, checkFirstLaunch. split.
  - intros flag Hget Hfalsy Hset.
    pose proof (Hread "isFirstLaunch" s) as Hs.
    destruct (storage_getItem "isFirstLaunch" s) as [r s1] eqn:E1.
    simpl in Hget, Hs. subst r s1. rewrite Hfalsy. simpl.
    split; [reflexivity|]. split; [reflexivity|].
    pose proof (Hback "isFirstLaunch" "true" s Hset) as Hget2.
    pose proof (Hread "isFirstLaunch"
                  (snd (storage_setItem "isFirstLaunch" "true" s))) as Hs2.
    destruct (storage_getItem "isFirstLaunch"
                (snd (storage_setItem "isFirstLaunch" "true" s)))
      as [r2 s2] eqn:E2.
    simpl in Hget2, Hs2. subst r2 s2. reflexivity.
  - intros flag Hget Hne.
    pose proof (Hread "isFirstLaunch" s) as Hs.
    destruct (storage_getItem "isFirstLaunch" s) as [r s1] eqn:E1.
    simpl in Hget, Hs. subst r s1. simpl.
    apply JsStrings.truthy_true in Hne. rewrite Hne. reflexivity.
Qed.

End Provider.

Lemma memory_writes_are_read_back :
  @writesAreReadBack (list (string * string)) memoryStorage.
Proof.
  intros key value s _. simpl. rewrite String.eqb_refl. reflexivity.
Defined.

Lemma first_launch_reported_once_witness :
  fst (launch (S := list (string * string)) [("theme", "dark")]) = true
  /\ launch (snd (launch (S := list (string * string)) [("theme", "dark")]))
     = (false, [("isFirstLaunch", "true"); ("theme", "dark")]).
Proof.
  pose proof (first_launch_reported_once (S := list (string * string))
                [("theme", "dark")]
                (fun key s => eq_refl) memory_writes_are_read_back) as H.
  destruct H as (Hfirst & _).
  destruct (Hfirst None eq_refl eq_refl eq_refl) as (H1 & _ & H3).
  split; [exact H1 | exact H3].
Defined.

End OnboardingSpec.

(** ** The verify-email screen *)

Module AuthScreensSpec.

Import AuthScreens.

(** A deep link sends the verify-email screen to the login route
    exactly when the text 'verify', in lower case, stands somewhere in
    its URL; any other link is ignored. *)
Theorem deep_link_needs_verify (url : string) :
  (handleDeepLink url = [RouterReplace loginRoute]
     <-> exists a b, url = (a ++ "verify" ++ b)%string)
  /\ (handleDeepLink url = []
        <-> ~ exists a b, url = (a ++ "verify" ++ b)%string).
Proof.
  unfold handleDeepLink.
  pose proof (JsStrings.includes_occurs url "verify") as Hocc.
  destruct (Js.includes url "verify"); split; split.
  - intros _. apply Hocc. reflexivity.
  - reflexivity.
  - discriminate.
  - intros Hno. exfalso. apply Hno, Hocc. reflexivity.
  - discriminate.
  - intros Hyes. apply Hocc in Hyes. discriminate.
  - intros _ Hyes. apply Hocc in Hyes. discriminate.
  - reflexivity.
Qed.

Lemma deep_link_needs_verify_witness :
  handleDeepLink "nomadcrew://auth/verify?token=abc"
  = [RouterReplace loginRoute].
Proof.
  apply (proj1 (deep_link_needs_verify "nomadcrew://auth/verify?token=abc")).
  exists "nomadcrew://auth/", "?token=abc". reflexivity.
Defined.

(** The link is matched as it is written: upper case does not count. *)
Example deep_link_samples :
  handleDeepLink "nomadcrew://auth/verify?token=abc"
    = [RouterReplace loginRoute]
  /\ handleDeepLink "nomadcrew://auth/VERIFY" = []
  /\ handleDeepLink "nomadcrew://trips/42" = [].
Proof. repeat split; reflexivity. Qed.

Section WithStore.

Variable Number : Type.
Variable parseInt : string -> Number.
Variable typeErrorMessage : string.

(** The verify-email screen stays up after a register that went
    through, and redirects to the login route after any logout, after
    a login that left no error, and after a failed register in a store
    that was not verifying. *)
Theorem verify_screen_follows_store (st : AuthStore.AuthState Number)
  (rc : AuthStore.RegisterCredentials) (lc : AuthStore.LoginCredentials)
  (plain : Js.Settled (option string))
  (session : Js.Settled AuthStore.SessionReply) :
  (AuthStore.completion (AuthStore.register st rc plain) = AuthStore.Returned ->
     VerifyEmailScreen
       (AuthStore.isVerifying (AuthStore.after (AuthStore.register st rc plain)))
     = ([], Some "Verify Your Email"))
  /\ (forall m,
        AuthStore.completion (AuthStore.register st rc plain)
          = AuthStore.Thrown m ->
        AuthStore.isVerifying st = false ->
        VerifyEmailScreen
          (AuthStore.isVerifying
             (AuthStore.after (AuthStore.register st rc plain)))
        = ([RouterReplace loginRoute], None))
  /\ (AuthStore.error
        (AuthStore.after
           (AuthStore.login parseInt typeErrorMessage st lc session)) = None ->
      VerifyEmailScreen
        (AuthStore.isVerifying
           (AuthStore.after
              (AuthStore.login parseInt typeErrorMessage st lc session)))
      = ([RouterReplace loginRoute], None))
  /\ VerifyEmailScreen
       (AuthStore.isVerifying (fst (AuthStore.logout st plain)))
     = ([RouterReplace loginRoute], None).
Proof.
  split; [|split; [|split]].
  - unfold AuthStore.register.
    destruct plain as [[e|] | e]; simpl; try discriminate. reflexivity.
  - intros m. unfold AuthStore.register.
    destruct plain as [[e|] | e]; simpl; try discriminate;
      intros _ ->; reflexivity.
  - unfold AuthStore.login, AuthStore.loginFailed.
    destruct session as [reply | e]; simpl; [|discriminate].
    destruct (AuthStore.reply_error reply); simpl; [discriminate|].
    destruct (AuthStore.reply_session reply) as [s|]; simpl; [|discriminate].
    destruct (AuthStore.session_user s); simpl; [|discriminate].
    reflexivity.
  - reflexivity.
Qed.

End WithStore.

Lemma verify_screen_follows_store_witness :
  VerifyEmailScreen
    (AuthStore.isVerifying
       (AuthStore.after
          (AuthStore.register AuthStore.signedOut AuthStore.adaRegister
             (Js.Fulfilled None))))
  = ([], Some "Verify Your Email").
Proof.
  apply (verify_screen_follows_store Z AuthStore.sampleParseInt
           AuthStore.sampleTypeError AuthStore.signedOut
           AuthStore.adaRegister AuthStore.adaLogin (Js.Fulfilled None)
           (Js.Rejected "offline")).
  reflexivity.
Defined.

End AuthScreensSpec.

(** ** More on the trip tabs *)

Module TripsMore.

Import Trips.

Lemma normalizedStatus_again (trip : Trip) :
  normalizedStatus (withStatus trip (normalizedStatus trip))
  = normalizedStatus trip.
Proof.
  unfold normalizedStatus, withStatus; simpl.
  destruct (status trip) as [s|]; [|reflexivity].
  destruct (String.eqb (Js.toUpperCase s) "PLANNED") eqn:Hp.
  - reflexivity.
  - rewrite JsFacts.toUpperCase_idempotent, Hp. reflexivity.
Qed.

Lemma withStatus_again (trip : Trip) :
  withStatus (withStatus trip (normalizedStatus trip))
    (normalizedStatus (withStatus trip (normalizedStatus trip)))
  = withStatus trip (normalizedStatus trip).
Proof. rewrite normalizedStatus_again. reflexivity. Qed.

Lemma filter_both {A : Type} (f g : A -> bool) (l : list A) :
  (forall a, f a = true -> g a = true) ->
  List.filter (fun a => f a && g a) l = List.filter f l.
Proof.
  intros Himp. apply List.filter_ext_in. intros a _.
  destruct (f a) eqn:Hf; [rewrite (Himp a Hf)|]; reflexivity.
Qed.

Section Filter.

Variable parseDate : string -> Js.TimeValue.
Variable now : Js.TimeValue.

Lemma tabRule_again (tab : Tab) (trip : Trip) :
  tabRule parseDate now tab (withStatus trip (normalizedStatus trip))
  = tabRule parseDate now tab trip.
Proof.
  unfold tabRule. rewrite normalizedStatus_again. reflexivity.
Qed.

(** Filtering what a tab shows, by the same tab and search text, gives
    the same list again: the trips a tab hands out are already in the
    form it works on. *)
Theorem filteredTrips_idempotent (trips : list Trip) (tab : Tab)
  (searchQuery : string) :
  filteredTrips parseDate now
    (filteredTrips parseDate now trips tab searchQuery) tab searchQuery
  = filteredTrips parseDate now trips tab searchQuery.
Proof.
  rewrite !TripsSpec.filteredTrips_tabContents. unfold tabContents.
  rewrite TripsSpec.filter_of_map, List.map_map, TripsSpec.filter_of_filter.
  rewrite (List.map_ext _ _ withStatus_again).
  f_equal. apply filter_both. intros trip Hkeep.
  rewrite tabRule_again. exact Hkeep.
Qed.

Lemma shown_passes_tab (trips : list Trip) (tab : Tab)
  (searchQuery : string) (shown : Trip) :
  In shown (filteredTrips parseDate now trips tab searchQuery) ->
  tabPredicate parseDate now tab shown = true.
Proof.
  rewrite TripsSpec.filteredTrips_tabContents. unfold tabContents.
  rewrite in_map_iff. intros (trip & <- & Hin).
  apply filter_In in Hin. destruct Hin as [_ Hkeep].
  apply andb_true_iff in Hkeep. destruct Hkeep as [_ Hrule].
  rewrite TripsSpec.tabPredicate_rule. exact Hrule.
Qed.

(** No trip is under both Active and Cancelled, whatever is searched
    for in either tab; and every trip a tab shows carries a status in
    upper case that is never PLANNED. *)
Theorem active_and_cancelled_apart (trips : list Trip)
  (query query' : string) (shown : Trip) :
  (In shown (filteredTrips parseDate now trips Active query) ->
   ~ In shown (filteredTrips parseDate now trips Cancelled query'))
  /\ (forall tab,
        In shown (filteredTrips parseDate now trips tab query) ->
        status shown <> Some "PLANNED"
        /\ forall s, status shown = Some s -> Js.toUpperCase s = s).
Proof.
  split.
  - intros Ha Hc.
    apply shown_passes_tab in Ha. apply shown_passes_tab in Hc.
    simpl in Ha, Hc. unfold isActive, isCancelled in *.
    apply JsFacts.strictEq_true in Hc. rewrite Hc in Ha. discriminate.
  - intros tab. rewrite TripsSpec.filteredTrips_tabContents.
    unfold tabContents. rewrite in_map_iff. intros (trip & <- & _).
    unfold withStatus, normalizedStatus; simpl.
    destruct (status trip) as [s|].
    + destruct (String.eqb (Js.toUpperCase s) "PLANNED") eqn:Hp.
      * split; [discriminate|]. intros s' Hs'. injection Hs' as <-.
        reflexivity.
      * split.
        -- intros H. injection H as H. apply String.eqb_neq in Hp.
           contradiction.
        -- intros s' Hs'. injection Hs' as <-.
           apply JsFacts.toUpperCase_idempotent.
    + split; [discriminate|]. intros s' Hs'. discriminate.
Qed.

(** A trip whose status, once normalized, is none of ACTIVE, PLANNING,
    COMPLETED and CANCELLED (a missing status included), and whose end
    date is not before now (an unreadable date included), is under no
    tab: when every trip is such, each tab is empty for every search. *)
Theorem trips_under_no_tab (trips : list Trip) :
  (forall trip, In trip trips ->
     normalizedStatus trip <> Some "ACTIVE"
     /\ normalizedStatus trip <> Some "PLANNING"
     /\ normalizedStatus trip <> Some "COMPLETED"
     /\ normalizedStatus trip <> Some "CANCELLED"
     /\ Js.dateLt (parseDate (endDate trip)) now = false) ->
  forall tab searchQuery,
    filteredTrips parseDate now trips tab searchQuery = [].
Proof.
  intros Hhidden tab searchQuery.
  rewrite TripsSpec.filteredTrips_tabContents. unfold tabContents.
  replace (List.filter _ trips) with (@nil Trip); [reflexivity|].
  symmetry. induction trips as [|trip rest IH]; [reflexivity|].
  simpl.
  destruct (Hhidden trip (or_introl eq_refl)) as (Ha & Hp & Hc & Hx & Hd).
  apply JsFacts.strictEq_false in Ha, Hp, Hc, Hx.
  assert (Hrule : tabRule parseDate now tab trip = false).
  { destruct tab; simpl; rewrite ?Ha, ?Hp, ?Hc, ?Hx, ?Hd; reflexivity. }
  rewrite Hrule, andb_false_r.
  apply IH. intros t Ht. apply Hhidden. right. exact Ht.
Qed.

Lemma lowerChar_again (c : ascii) :
  Js.lowerChar (Js.lowerChar c) = Js.lowerChar c.
Proof.
  destruct c as [[] [] [] [] [] [] [] []]; vm_compute; reflexivity.
Qed.

Lemma toLowerCase_again (s : string) :
  Js.toLowerCase (Js.toLowerCase s) = Js.toLowerCase s.
Proof.
  induction s as [|c r IH]; simpl.
  - reflexivity.
  - rewrite lowerChar_again, IH. reflexivity.
Qed.

Lemma search_lower (trips : list Trip) (tab : Tab) (searchQuery : string) :
  filteredTrips parseDate now trips tab (Js.toLowerCase searchQuery)
  = filteredTrips parseDate now trips tab searchQuery.
Proof.
  rewrite !TripsSpec.filteredTrips_tabContents. unfold tabContents.
  f_equal. apply List.filter_ext. intros trip.
  unfold searchMatches. rewrite toLowerCase_again. reflexivity.
Qed.

(** For a search text of ASCII characters, the search does not tell
    upper case from lower case in the text typed: the text in upper
    case, and the text in lower case, find the same trips as the text
    itself. *)
Theorem search_ignores_case (trips : list Trip) (tab : Tab)
  (searchQuery : string) :
  Js.isAscii searchQuery = true ->
  filteredTrips parseDate now trips tab (Js.toUpperCase searchQuery)
  = filteredTrips parseDate now trips tab searchQuery
  /\ filteredTrips parseDate now trips tab (Js.toLowerCase searchQuery)
     = filteredTrips parseDate now trips tab searchQuery.
Proof.
  intros _. split; [|apply search_lower].
  rewrite !TripsSpec.filteredTrips_tabContents. unfold tabContents.
  f_equal. apply List.filter_ext. intros trip.
  unfold searchMatches. rewrite JsStrings.toLowerCase_toUpperCase.
  reflexivity.
Qed.

End Filter.

(** A trip matches the search exactly when the search text, in lower
    case, stands somewhere in its name in lower case or in its
    destination in lower case; a trip without destination, or with an
    empty one, is matched by its name alone. *)
Theorem search_finds_substrings (searchQuery : string) (trip : Trip) :
  searchMatches searchQuery trip = true <->
  (exists a b,
     Js.toLowerCase (name trip)
     = (a ++ Js.toLowerCase searchQuery ++ b)%string)
  \/ (exists d a b,
        destination trip = Some d /\ d <> ""
        /\ Js.toLowerCase d = (a ++ Js.toLowerCase searchQuery ++ b)%string).
Proof.
  unfold searchMatches, matchesQuery.
  rewrite orb_true_iff, JsStrings.includes_occurs.
  split; intros [Hname | Hdest]; try (left; exact Hname); right.
  - destruct (destination trip) as [d|]; [|discriminate].
    apply andb_true_iff in Hdest. destruct Hdest as [Ht Hi].
    apply JsStrings.truthy_true in Ht.
    apply JsStrings.includes_occurs in Hi. destruct Hi as (a & b & Hab).
    exists d, a, b. repeat split; assumption.
  - destruct Hdest as (d & a & b & -> & Hne & Hab).
    apply andb_true_iff. split.
    + apply JsStrings.truthy_true. exact Hne.
    + apply JsStrings.includes_occurs. exists a, b. exact Hab.
Qed.

Lemma search_ignores_case_witness :
  filteredTrips Js.sampleParseDate sampleNow sampleTrips Active "LIS"
  = filteredTrips Js.sampleParseDate sampleNow sampleTrips Active "lis".
Proof.
  exact (proj1 (search_ignores_case Js.sampleParseDate sampleNow sampleTrips
                  Active "lis" eq_refl)).
Defined.

Lemma search_finds_substrings_witness :
  searchMatches "PORT" overdueTrip = true.
Proof.
  apply (search_finds_substrings "PORT" overdueTrip).
  right. exists "Portugal", "", "ugal". repeat split. discriminate.
Defined.

Lemma active_and_cancelled_apart_witness :
  In (withStatus overdueTrip (Some "ACTIVE"))
     (filteredTrips Js.sampleParseDate sampleNow sampleTrips Active "")
  /\ ~ In (withStatus overdueTrip (Some "ACTIVE"))
         (filteredTrips Js.sampleParseDate sampleNow sampleTrips Cancelled "").
Proof.
  assert (Hin : In (withStatus overdueTrip (Some "ACTIVE"))
                  (filteredTrips Js.sampleParseDate sampleNow sampleTrips
                     Active "")) by (left; reflexivity).
  split; [exact Hin|].
  exact (proj1 (active_and_cancelled_apart Js.sampleParseDate sampleNow
                  sampleTrips "" "" _) Hin).
Defined.

Lemma trips_under_no_tab_witness :
  filteredTrips Js.sampleParseDate sampleNow [draftTrip] Recent "" = [].
Proof.
  apply (trips_under_no_tab Js.sampleParseDate sampleNow [draftTrip]).
  intros trip [<- | []]. repeat split; try discriminate.
Defined.

End TripsMore.

(** ** The rest of the trips screen *)

Module TripsScreenSpec.

Import TripsScreen.

(** The trips are fetched exactly when the auth store is initialized
    and holds a non-empty token.  So they are never fetched after a
    logout; and after a first [initialize] they are fetched exactly when
    the session recovered carries a user and a non-empty access
    token. *)
Theorem fetch_follows_auth (Number : Type) (parseInt : string -> Number)
  (st : AuthStore.AuthState Number) :
  (forall isInitialized token,
     fetchOnMount isInitialized token = [FetchTrips]
     <-> isInitialized = true /\ exists t, token = Some t /\ t <> "")
  /\ (forall answer,
        ~ In FetchTrips
            (fetchOnMount
               (AuthStore.isInitialized (fst (AuthStore.logout st answer)))
               (AuthStore.token (fst (AuthStore.logout st answer)))))
  /\ (forall answer,
        AuthStore.loading st = false -> AuthStore.isInitialized st = false ->
        (fetchOnMount
           (AuthStore.isInitialized
              (fst (AuthStore.initialize parseInt st answer)))
           (AuthStore.token (fst (AuthStore.initialize parseInt st answer)))
         = [FetchTrips]
         <-> exists reply s u,
               answer = Js.Fulfilled reply
               /\ AuthStore.reply_error reply = None
               /\ AuthStore.reply_session reply = Some s
               /\ AuthStore.session_user s = Some u
               /\ AuthStore.access_token s <> "")).
Proof.
  assert (Hguard : forall isInitialized token,
            fetchOnMount isInitialized token = [FetchTrips]
            <-> isInitialized = true /\ exists t, token = Some t /\ t <> "").
  { intros i token. unfold fetchOnMount.
    destruct i; simpl.
    - destruct token as [t|]; simpl.
      + destruct (Js.truthy t) eqn:Ht.
        * apply JsStrings.truthy_true in Ht.
          split; [intros _; split; [reflexivity | exists t; auto]
                 | reflexivity].
        * apply JsFacts.truthy_false in Ht. subst t.
          split; [discriminate|]. intros (_ & t & Ht & Hne). congruence.
      + split; [discriminate|]. intros (_ & t & Ht & _). discriminate.
    - split; [discriminate|]. intros (H & _). discriminate. }
  split; [exact Hguard|]. split.
  - intros answer. simpl. unfold fetchOnMount.
    rewrite andb_false_r. intros [H | []]. discriminate.
  - intros answer Hl Hi. rewrite Hguard.
    unfold AuthStore.initialize, AuthStore.recoverSession.
    rewrite Hl, Hi. simpl.
    destruct answer as [reply | e]; simpl.
    + destruct (AuthStore.reply_error reply) as [e|] eqn:He; simpl.
      * split; [intros (_ & t & Ht & _); discriminate|].
        intros (r & s & u & Hr & He' & _). injection Hr as <-. congruence.
      * destruct (AuthStore.reply_session reply) as [s|] eqn:Hs; simpl.
        -- destruct (AuthStore.session_user s) as [u|] eqn:Hu; simpl.
           ++ split.
              ** intros (_ & t & Ht & Hne). injection Ht as <-.
                 exists reply, s, u. repeat split; assumption.
              ** intros (r & s' & u' & Hr & _ & Hs' & _ & Hne).
                 injection Hr as <-. rewrite Hs in Hs'. injection Hs' as <-.
                 split; [reflexivity|].
                 exists (AuthStore.access_token s). split; [reflexivity|].
                 exact Hne.
           ++ split; [intros (_ & t & Ht & _); discriminate|].
              intros (r & s' & u' & Hr & _ & Hs' & Hu' & _).
              injection Hr as <-. rewrite Hs in Hs'. injection Hs' as <-.
              congruence.
        -- split; [intros (_ & t & Ht & _); discriminate|].
           intros (r & s' & u' & Hr & _ & Hs' & _).
           injection Hr as <-. congruence.
    + split; [intros (_ & t & Ht & _); discriminate|].
      intros (r & s & u & Hr & _). discriminate.
Qed.

Section Screen.

Variable parseDate : string -> Js.TimeValue.
Variable now : Js.TimeValue.

(** Mounted in the trips screen, the modal never shows its 'Failed to
    create trip' alert: the screen's [handleTripSubmit] catches the
    failure and logs it, so the modal sees a submit that went through.
    For a form that passes validation the modal closes, and the last
    thing the screen does is hide it, whether the trip was created or
    not. *)
Theorem failed_create_is_silent (tripData : CreateTripModal.Trip)
  (created : Js.Settled unit) :
  ~ In (CreateTripModal.Alert "Error"
          "Failed to create trip. Please try again.")
       (fst (submitFromModal parseDate tripData created))
  /\ (fst (CreateTripModal.validateForm parseDate tripData) = true ->
      fst (submitFromModal parseDate tripData created)
        = [CreateTripModal.SetLoading true; CreateTripModal.OnSubmit tripData;
           CreateTripModal.OnClose; CreateTripModal.SetLoading false]
      /\ snd (submitFromModal parseDate tripData created)
         = fst (handleTripSubmit parseDate tripData created)
           ++ [SetCreateModalVisible false]
      /\ forall e, created = Js.Rejected e ->
           In (ConsoleError "Failed to create trip:" e)
              (snd (submitFromModal parseDate tripData created)))
  /\ (fst (CreateTripModal.validateForm parseDate tripData) = false ->
      snd (submitFromModal parseDate tripData created) = []).
Proof.
  unfold submitFromModal, CreateTripModal.handleSubmit.
  destruct (CreateTripModal.validateForm parseDate tripData)
    as [valid shown] eqn:Hv.
  assert (Hshown : valid = false ->
            exists message,
              shown = [CreateTripModal.Alert "Validation Error" message]).
  { revert Hv. unfold CreateTripModal.validateForm.
    repeat match goal with
           | |- context [if ?b then _ else _] => destruct b
           end;
      intros Hv; injection Hv as <- <-; intros; try discriminate;
      eexists; reflexivity. }
  assert (Hvalid : valid = true -> shown = []).
  { revert Hv. unfold CreateTripModal.validateForm.
    repeat match goal with
           | |- context [if ?b then _ else _] => destruct b
           end;
      intros Hv; injection Hv as <- <-; intros; try discriminate;
      reflexivity. }
  destruct valid; simpl.
  - rewrite (Hvalid eq_refl). unfold handleTripSubmit, handleModalClose.
    destruct created as [u | e]; simpl.
    + split; [intros H; repeat destruct H as [H | H]; try discriminate;
              contradiction|].
      split; [|discriminate]. intros _. repeat split. discriminate.
    + split; [intros H; repeat destruct H as [H | H]; try discriminate;
              contradiction|].
      split; [|discriminate]. intros _. repeat split.
      intros e' He'. injection He' as <-. right. left. reflexivity.
  - destruct (Hshown eq_refl) as [message ->]. simpl.
    split; [intros [H | []]; discriminate|].
    split; [discriminate | reflexivity].
Qed.

(** A toggle called from a render in which the bar is open closes it
    and keeps the text that was typed, so the list stays filtered by a
    text that is no longer on screen; a toggle called from a render in
    which the bar is closed opens it and clears the text.  Two toggles
    called from the same render, as a press and a blur can be, write
    the same cells as one.  A toggle called from the render that
    follows puts the bar back, with the text empty. *)
Theorem closing_search_keeps_filter (tripsLoading : bool)
  (trips : list Trips.Trip) (activeTab : Trips.Tab) (captured : bool)
  (st : SearchState) :
  (captured = true ->
     searchExpanded (toggleSearch captured st) = false
     /\ searchQuery (toggleSearch captured st) = searchQuery st
     /\ content parseDate now tripsLoading trips activeTab
          (toggleSearch captured st)
        = content parseDate now tripsLoading trips activeTab st)
  /\ (captured = false ->
      searchExpanded (toggleSearch captured st) = true
      /\ searchQuery (toggleSearch captured st) = "")
  /\ toggleSearch captured (toggleSearch captured st)
     = toggleSearch captured st
  /\ toggleSearch (searchExpanded (toggleSearch captured st))
       (toggleSearch captured st)
     = {| searchExpanded := captured; searchQuery := "" |}.
Proof.
  unfold toggleSearch, content; simpl.
  destruct captured; simpl; repeat split;
    intros; try discriminate; reflexivity.
Qed.

End Screen.

Lemma fetch_follows_auth_witness :
  fetchOnMount
    (AuthStore.isInitialized
       (fst (AuthStore.initialize AuthStore.sampleParseInt AuthStore.signedOut
               (Js.Fulfilled {| AuthStore.reply_session :=
                                  Some AuthStore.sampleSession;
                                AuthStore.reply_error := None |}))))
    (AuthStore.token
       (fst (AuthStore.initialize AuthStore.sampleParseInt AuthStore.signedOut
               (Js.Fulfilled {| AuthStore.reply_session :=
                                  Some AuthStore.sampleSession;
                                AuthStore.reply_error := None |}))))
  = [FetchTrips].
Proof.
  apply (proj2 (proj2 (fetch_follows_auth Z AuthStore.sampleParseInt
                         AuthStore.signedOut)) _ eq_refl eq_refl).
  eexists _, AuthStore.sampleSession, _.
  repeat split; try reflexivity. discriminate.
Defined.

Lemma failed_create_is_silent_witness :
  fst (submitFromModal Js.sampleParseDate CreateTripModal.lisbonTrip
         (Js.Rejected "HTTP 500"))
  = [CreateTripModal.SetLoading true;
     CreateTripModal.OnSubmit CreateTripModal.lisbonTrip;
     CreateTripModal.OnClose; CreateTripModal.SetLoading false].
Proof.
  apply (failed_create_is_silent Js.sampleParseDate CreateTripModal.lisbonTrip
           (Js.Rejected "HTTP 500")).
  reflexivity.
Defined.

Lemma closing_search_keeps_filter_witness :
  content Js.sampleParseDate Trips.sampleNow false Trips.sampleTrips
    Trips.Active
    (toggleSearch true {| searchExpanded := true; searchQuery := "oslo" |})
  = TripList [Trips.withStatus Trips.plannedTrip (Some "PLANNING")].
Proof.
  pose proof (closing_search_keeps_filter Js.sampleParseDate Trips.sampleNow
                false Trips.sampleTrips Trips.Active true
                {| searchExpanded := true; searchQuery := "oslo" |}) as H.
  destruct H as (Hclose & _).
  destruct (Hclose eq_refl) as (_ & _ & Hsame).
  rewrite Hsame. reflexivity.
Defined.

End TripsScreenSpec.

(** ** The date picker of the trip-creation form *)

Module DatePickerSpec.

Import CreateTripModal.

Section DatePicker.

Variable parseDate : string -> Js.TimeValue.
Variable toISOString : Z -> string.

(** A date change touches nothing but the date the open picker is for:
    the texts of the form, its [loading] cell and the other date stay.
    With no date handed over, or no picker open, the form is not
    changed at all.  On android every event closes the picker; on any
    other platform no event closes it. *)
Theorem date_change_frame (os : string) (st : FormState)
  (selectedDate : option Z) :
  let st' := handleDateChange toISOString os st selectedDate in
  (id (trip st') = id (trip st) /\ name (trip st') = name (trip st)
   /\ destination (trip st') = destination (trip st)
   /\ description (trip st') = description (trip st)
   /\ loading st' = loading st)
  /\ (selectedDate = None \/ showDatePicker st = None -> trip st' = trip st)
  /\ (forall d, selectedDate = Some d -> showDatePicker st = Some PickStart ->
        startDate (trip st') = toISOString d
        /\ endDate (trip st') = endDate (trip st))
  /\ (forall d, selectedDate = Some d -> showDatePicker st = Some PickEnd ->
        endDate (trip st') = toISOString d
        /\ startDate (trip st') = startDate (trip st))
  /\ (os = "android" -> showDatePicker st' = None)
  /\ (os <> "android" -> showDatePicker st' = showDatePicker st).
Proof.
  cbv zeta. unfold handleDateChange.
  destruct selectedDate as [d|], (showDatePicker st) as [[|]|] eqn:Hp; simpl;
    repeat match goal with |- _ /\ _ => split end;
    try reflexivity;
    try (intros [H | H]; discriminate);
    try (intros d' Hd Hw; try discriminate; injection Hd as <-;
         split; reflexivity);
    try (intros ->; reflexivity);
    try (intros Hos; apply String.eqb_neq in Hos; rewrite Hos; reflexivity);
    try (intros _; reflexivity).
Qed.

(** The picker bounds the end date by the start date, but not the
    start date by the end date.  So an end date can be picked first and
    a later start date after it; the submit that follows is then
    refused with the date alert.  When the end date picked is not
    before the start date, equal dates included, the form is passed
    on. *)
Theorem picked_dates_are_validated (os : string) (st : FormState)
  (s e : Z) (submitted : Js.Settled unit) :
  parseDate (toISOString s) = Some s ->
  parseDate (toISOString e) = Some e ->
  Js.allWhiteSpace (name (trip st)) = false ->
  Js.allWhiteSpace (destination (trip st)) = false ->
  let st1 := handleDateChange toISOString os (openPicker PickEnd st) (Some e) in
  let st2 :=
    handleDateChange toISOString os (openPicker PickStart st1) (Some s) in
  minimumDate parseDate (openPicker PickStart st1) = None
  /\ minimumDate parseDate (openPicker PickEnd st2) = Some (Some s)
  /\ ((e < s)%Z ->
      handleSubmit parseDate (trip st2) submitted
      = [Alert "Validation Error" "End date must be after start date."])
  /\ ((s <= e)%Z ->
      handleSubmit parseDate (trip st2) submitted
      = submission (trip st2) submitted).
Proof.
  intros Hs He Hname Hdest. cbv zeta.
  split; [reflexivity|].
  split; [unfold minimumDate; simpl; rewrite Hs; reflexivity|].
  rewrite CreateTripModalSpec.handleSubmit_cases. simpl.
  rewrite Hname, Hdest, Hs, He. simpl.
  split; intros Hlt.
  - apply Z.ltb_lt in Hlt. rewrite Hlt. reflexivity.
  - apply Z.ltb_ge in Hlt. rewrite Hlt. reflexivity.
Qed.

End DatePicker.

Lemma date_change_frame_witness :
  startDate
    (trip (handleDateChange sampleToISOString "ios"
             (openPicker PickStart
                {| trip := lisbonTrip; showDatePicker := None;
                   loading := false |})
             (Some 1736467200000%Z)))
  = "2025-01-10T00:00:00.000Z"
  /\ showDatePicker
       (handleDateChange sampleToISOString "ios"
          (openPicker PickStart
             {| trip := lisbonTrip; showDatePicker := None;
                loading := false |})
          None)
     = Some PickStart.
Proof.
  split.
  - pose proof (date_change_frame sampleToISOString "ios"
                  (openPicker PickStart
                     {| trip := lisbonTrip; showDatePicker := None;
                        loading := false |})
                  (Some 1736467200000%Z)) as H.
    cbv zeta in H. destruct H as (_ & _ & Hstart & _).
    destruct (Hstart _ eq_refl eq_refl) as [H _]. exact H.
  - pose proof (date_change_frame sampleToISOString "ios"
                  (openPicker PickStart
                     {| trip := lisbonTrip; showDatePicker := None;
                        loading := false |})
                  None) as H.
    cbv zeta in H. destruct H as (_ & _ & _ & _ & _ & Hstay).
    apply Hstay. discriminate.
Defined.

Lemma picked_dates_are_validated_witness :
  handleSubmit Js.sampleParseDate
    (trip (handleDateChange sampleToISOString "android"
             (openPicker PickStart
                (handleDateChange sampleToISOString "android"
                   (openPicker PickEnd
                      {| trip := lisbonTrip; showDatePicker := None;
                         loading := false |})
                   (Some 1735689600000%Z)))
             (Some 1736467200000%Z)))
    (Js.Fulfilled tt)
  = [Alert "Validation Error" "End date must be after start date."].
Proof.
  pose proof (picked_dates_are_validated Js.sampleParseDate sampleToISOString
                "android"
                {| trip := lisbonTrip; showDatePicker := None;
                   loading := false |}
                1736467200000%Z 1735689600000%Z (Js.Fulfilled tt)
                eq_refl eq_refl eq_refl eq_refl) as H.
  cbv zeta in H. destruct H as (_ & _ & Hrefused & _).
  apply Hrefused. reflexivity.
Defined.

End DatePickerSpec.

(** ** The screens of the todo list *)

Module TodoScreens.

Import TodoList.

Section Rendered.

Variable getColorForUUID : string -> string.

Ltac finish :=
  repeat match goal with
         | H : _ /\ _ |- _ => destruct H
         | H : exists _, _ |- _ => destruct H
         | H : _ \/ _ |- _ => destruct H
         | H : ?x <> ?x |- _ => exfalso; apply H; reflexivity
         end;
  try discriminate; try congruence;
  try (repeat split; congruence);
  try (split; [reflexivity | right; discriminate]);
  try (split; [reflexivity | left; reflexivity]);
  try (split; [discriminate | reflexivity]);
  eauto.

(** Which of its four screens the todo list draws.  The spinner wins
    when the store is loading with nothing loaded, even over an error;
    otherwise a non-empty error message hides the todos already loaded;
    an empty error message counts as no error; the list is drawn
    whenever a todo is loaded and there is no error, loading or not. *)
Theorem screen_precedence (p : TodoListProps) (st : TodoStore) :
  let v := TodoListContent getColorForUUID p st in
  (v = Spinner <-> loading st = true /\ todos st = [])
  /\ ((exists message onPress, v = ErrorScreen message onPress)
      <-> Js.truthyOpt (error st) = true
          /\ (loading st = false \/ todos st <> []))
  /\ ((exists onPress, v = EmptyScreen onPress)
      <-> loading st = false /\ Js.truthyOpt (error st) = false
          /\ todos st = [])
  /\ (isListScreen v = true
      <-> todos st <> [] /\ Js.truthyOpt (error st) = false)
  /\ (error st = Some "" -> Js.truthyOpt (error st) = false).
Proof.
  cbv zeta.
  assert (Hempty : error st = Some "" -> Js.truthyOpt (error st) = false)
    by (intros ->; reflexivity).
  unfold TodoListContent.
  destruct (loading st) eqn:Hl, (todos st) as [|t rest] eqn:Ht,
    (Js.truthyOpt (error st)) eqn:Herr; simpl;
    (split; [|split; [|split; [|split; [|exact Hempty]]]]);
    (split; intros H; finish).
Qed.

(** The rows of the list are the loaded todos, one row each and in the
    store's order; every row is disabled exactly while the store is
    loading.  While it is loading, reaching the end of the list fetches
    nothing, and the footer spinner shows.  No other screen has rows or
    reacts to the end of a list. *)
Theorem rows_mirror_todos (p : TodoListProps) (st : TodoStore) :
  let v := TodoListContent getColorForUUID p st in
  List.map todo (rowsOf v) = (if isListScreen v then todos st else [])
  /\ (forall row, In row (rowsOf v) ->
        disabled row = loading st
        /\ textColor row = getColorForUUID (Todo.id (todo row)))
  /\ (loading st = true -> onEndReachedOf v = [])
  /\ footerSpinnerOf v = isListScreen v && loading st
  /\ (isListScreen v = false ->
        rowsOf v = [] /\ onEndReachedOf v = [] /\ surfacesOf v = []).
Proof.
  cbv zeta. unfold TodoListContent.
  destruct (loading st && (List.length (todos st) =? 0)) eqn:Hspin;
    [simpl; repeat split; intros; try contradiction; reflexivity|].
  destruct (Js.truthyOpt (error st));
    [simpl; repeat split; intros; try contradiction; reflexivity|].
  destruct (List.length (todos st) =? 0);
    [simpl; repeat split; intros; try contradiction; reflexivity|].
  simpl. split; [|split; [|split; [|split]]].
  - rewrite List.map_map. simpl. apply List.map_id.
  - intros row Hrow. apply in_map_iff in Hrow.
    destruct Hrow as (item & <- & _). split; reflexivity.
  - intros Hl. unfold handleLoadMore. rewrite Hl. reflexivity.
  - reflexivity.
  - discriminate.
Qed.

End Rendered.

Lemma rows_mirror_todos_witness :
  onEndReachedOf
    (TodoListContent sampleColor sampleProps
       {| todos := [todoA; todoB]; loading := true; error := None;
          hasMore := true; wsConnection := None |}) = []
  /\ List.map todo
       (rowsOf (TodoListContent sampleColor sampleProps
                  {| todos := [todoA; todoB]; loading := true; error := None;
                     hasMore := true; wsConnection := None |}))
     = [todoA; todoB].
Proof.
  pose proof (rows_mirror_todos sampleColor sampleProps
                {| todos := [todoA; todoB]; loading := true; error := None;
                   hasMore := true; wsConnection := None |}) as H.
  cbv zeta in H. destruct H as (Hrows & _ & Hend & _).
  split; [apply Hend; reflexivity | exact Hrows].
Defined.

Lemma screen_precedence_witness :
  TodoListContent sampleColor sampleProps
    {| todos := []; loading := true; error := Some "Network request failed";
       hasMore := false; wsConnection := None |} = Spinner.
Proof.
  pose proof (screen_precedence sampleColor sampleProps
                {| todos := []; loading := true;
                   error := Some "Network request failed";
                   hasMore := false; wsConnection := None |}) as H.
  cbv zeta in H. destruct H as (Hspin & _).
  apply Hspin. split; reflexivity.
Defined.

End TodoScreens.
